(** * Squeeze2Diretta: the Diretta output adapter and the pipe bridge

    A shallow embedding of
    - [DirettaOutputSimple] (DirettaOutputSimple.h, DirettaOutputSimple.cpp),
      the adapter that drives a [DIRETTA::SyncBuffer];
    - [main] of the wrapper (squeeze2diretta-wrapper.cpp), whose loop reads
      the decoder's pipe and hands the bytes to the adapter;
    - one turn of the output thread of the in-process backend
      (output_diretta.c).

    The Diretta SDK is proprietary and not part of the repository.  It is
    modelled by what the adapter can see of it: the calls made on the
    [SyncBuffer] are recorded in order, and the answers that the adapter
    uses ([find], [getSinkAddr], [is_connect]) are given by a [World], as
    functions of the calls made so far.  The numeric values of
    [DIRETTA::FormatID] are the SDK's as well: they are the members of the
    class [FormatIDs].  What the adapter prints is not modelled; what [main]
    prints is. *)

From Stdlib Require Import ZArith List Bool String DecimalString QArith Lia.
Import ListNotations.
Open Scope Z_scope.

(** ** Machine integers *)

Module Int.

Definition size_t_max : Z := 2 ^ 64.

(** Arithmetic on [size_t] is modulo 2^64. *)
Definition size_t (x : Z) : Z := x mod size_t_max.

(** [uint8_t] conversion, as in [format.bitDepth = config.sample_format]. *)
Definition uint8 (x : Z) : Z := x mod 256.

(** [unsigned] (32 bits). *)
Definition uint32 (x : Z) : Z := x mod 2 ^ 32.

(** Conversion of a 32-bit pattern to [int] (two's complement). *)
Definition int32 (x : Z) : Z :=
  let u := uint32 x in if u <? 2 ^ 31 then u else u - 2 ^ 32.

End Int.

(** ** Audio formats (DirettaOutputSimple.h) *)

Record AudioFormat : Type := mkFormat {
  sampleRate : Z;   (* uint32_t *)
  bitDepth : Z;     (* uint8_t *)
  channels : Z;     (* uint8_t *)
  isDSD : bool
}.

(** [m_currentFormat = {0}] in the constructor. *)
Definition zero_format : AudioFormat := mkFormat 0 0 0 false.

(** ** Format identifiers *)

Definition FormatID := Z.

(** The enumerators of [DIRETTA::FormatID] that [buildFormatID] uses.  Their
    values are fixed by the SDK headers. *)
Class FormatIDs : Type := {
  FMT_INVALID : FormatID;
  FMT_DSD_SIZ_32 : FormatID;
  FMT_DSD_R64 : FormatID;
  FMT_DSD_R128 : FormatID;
  FMT_DSD_R256 : FormatID;
  FMT_DSD_R512 : FormatID;
  FMT_DSD_R1024 : FormatID;
  FMT_PCM_SIGNED_16 : FormatID;
  FMT_PCM_SIGNED_24 : FormatID;
  FMT_PCM_SIGNED_32 : FormatID;
  FMT_PCM_R44100 : FormatID;
  FMT_PCM_R48000 : FormatID;
  FMT_PCM_R88200 : FormatID;
  FMT_PCM_R96000 : FormatID;
  FMT_PCM_R176400 : FormatID;
  FMT_PCM_R192000 : FormatID;
  FMT_PCM_R352800 : FormatID;
  FMT_PCM_R384000 : FormatID;
  FMT_PCM_R705600 : FormatID;
  FMT_PCM_R768000 : FormatID;
  FMT_CH_2_0 : FormatID
}.

Section BuildFormatID.

Context {ids : FormatIDs}.

(** [switch (format.sampleRate)] of the DSD branch; [None] is [default]. *)
Definition dsd_rate_flag (rate : Z) : option FormatID :=
  if rate =? 2822400 then Some FMT_DSD_R64
  else if rate =? 5644800 then Some FMT_DSD_R128
  else if rate =? 11289600 then Some FMT_DSD_R256
  else if rate =? 22579200 then Some FMT_DSD_R512
  else if rate =? 45158400 then Some FMT_DSD_R1024
  else None.

(** [switch (format.bitDepth)] of the PCM branch. *)
Definition pcm_depth_flag (depth : Z) : option FormatID :=
  if depth =? 16 then Some FMT_PCM_SIGNED_16
  else if depth =? 24 then Some FMT_PCM_SIGNED_24
  else if depth =? 32 then Some FMT_PCM_SIGNED_32
  else None.

(** [switch (format.sampleRate)] of the PCM branch. *)
Definition pcm_rate_flag (rate : Z) : option FormatID :=
  if rate =? 44100 then Some FMT_PCM_R44100
  else if rate =? 48000 then Some FMT_PCM_R48000
  else if rate =? 88200 then Some FMT_PCM_R88200
  else if rate =? 96000 then Some FMT_PCM_R96000
  else if rate =? 176400 then Some FMT_PCM_R176400
  else if rate =? 192000 then Some FMT_PCM_R192000
  else if rate =? 352800 then Some FMT_PCM_R352800
  else if rate =? 384000 then Some FMT_PCM_R384000
  else if rate =? 705600 then Some FMT_PCM_R705600
  else if rate =? 768000 then Some FMT_PCM_R768000
  else None.

(** [DirettaOutputSimple::buildFormatID].  [formatID |= x] is the bitwise
    or of the enumerators; the channel flag is always the stereo one. *)
Definition buildFormatID (format : AudioFormat) : FormatID :=
  if isDSD format then
    match dsd_rate_flag (sampleRate format) with
    | Some r => Z.lor (Z.lor FMT_DSD_SIZ_32 r) FMT_CH_2_0
    | None => FMT_INVALID
    end
  else
    match pcm_depth_flag (bitDepth format) with
    | None => FMT_INVALID
    | Some d =>
        match pcm_rate_flag (sampleRate format) with
        | Some r => Z.lor (Z.lor d r) FMT_CH_2_0
        | None => FMT_INVALID
        end
    end.

(** The supported combinations. *)
Definition dsd_rates : list Z :=
  [2822400; 5644800; 11289600; 22579200; 45158400].

Definition pcm_depths : list Z := [16; 24; 32].

Definition pcm_rates : list Z :=
  [44100; 48000; 88200; 96000; 176400; 192000; 352800; 384000; 705600;
   768000].

Definition mem (x : Z) (l : list Z) : bool := existsb (Z.eqb x) l.

Definition supported (f : AudioFormat) : bool :=
  if isDSD f then mem (sampleRate f) dsd_rates
  else mem (bitDepth f) pcm_depths && mem (sampleRate f) pcm_rates.

(** The key of the mapping: the encoding, the bit depth for PCM (for DSD
    the rate is the only parameter), and the sample rate. *)
Definition combination (f : AudioFormat) : bool * Z * Z :=
  (isDSD f, if isDSD f then 0 else bitDepth f, sampleRate f).

(** The tables behind the three switches. *)
Definition dsd_rate_table : list (Z * FormatID) :=
  [(2822400, FMT_DSD_R64); (5644800, FMT_DSD_R128);
   (11289600, FMT_DSD_R256); (22579200, FMT_DSD_R512);
   (45158400, FMT_DSD_R1024)].

Definition pcm_depth_table : list (Z * FormatID) :=
  [(16, FMT_PCM_SIGNED_16); (24, FMT_PCM_SIGNED_24);
   (32, FMT_PCM_SIGNED_32)].

Definition pcm_rate_table : list (Z * FormatID) :=
  [(44100, FMT_PCM_R44100); (48000, FMT_PCM_R48000);
   (88200, FMT_PCM_R88200); (96000, FMT_PCM_R96000);
   (176400, FMT_PCM_R176400); (192000, FMT_PCM_R192000);
   (352800, FMT_PCM_R352800); (384000, FMT_PCM_R384000);
   (705600, FMT_PCM_R705600); (768000, FMT_PCM_R768000)].

(** The container flags (the DSD container and the three PCM depths) and
    the rate flags. *)
Definition container_flags : list FormatID :=
  FMT_DSD_SIZ_32 :: map snd pcm_depth_table.

Definition rate_flags : list FormatID :=
  map snd dsd_rate_table ++ map snd pcm_rate_table.

Fixpoint distinct (l : list Z) : bool :=
  match l with
  | [] => true
  | x :: l' => negb (mem x l') && distinct l'
  end.

(** What is assumed of the SDK's enumerators: the container flags live in
    one bit field [tmask], the rate flags in another [rmask], the channel
    flag outside both; flags of one kind are pairwise different (a DSD rate
    and a PCM rate may share a value); and the container field of
    [FMT_INVALID] is none of the four container flags. *)
Definition layout_ok (tmask rmask : Z) : bool :=
  forallb (fun c => (Z.land c tmask =? c) && (Z.land c rmask =? 0))
          container_flags
  && forallb (fun r => (Z.land r rmask =? r) && (Z.land r tmask =? 0))
             rate_flags
  && (Z.land FMT_CH_2_0 tmask =? 0) && (Z.land FMT_CH_2_0 rmask =? 0)
  && distinct container_flags
  && distinct (map snd dsd_rate_table)
  && distinct (map snd pcm_rate_table)
  && negb (mem (Z.land FMT_INVALID tmask) container_flags).

End BuildFormatID.

(** ** The SDK object

    The calls the adapter makes on its [DIRETTA::SyncBuffer].  The arguments
    that are constants of the source ([ACQUA::Clock::MilliSeconds(100)], the
    name string, [MSMODE_AUTO], [setupBuffer(_, 4, false)], [connect(0, 0)])
    are left out.  [SetupBuffer] keeps the two operands of
    [static_cast<int>(framesPerSecond * bufferSeconds)] rather than the
    floating-point product; [SetStream] keeps the size of the stream that
    was filled by [memcpy] from the caller's pointer. *)
Inductive SdkCall : Type :=
| Find
| GetSinkName (index : Z)
| GetSinkAddr (index : Z)
| SyncOpen (thredMode : Z)
| SetSink (address : string) (mtu : Z)
| SetSinkConfigure (id : FormatID)
| GetSinkConfigure
| ConfigTransferAuto (infoCycle cycleMinTime cycleTime : Z)
| ConfigTransferVarMax (infoCycle : Z)
| SetupBuffer (framesPerSecond : Z) (bufferSeconds : Q)
| Connect
| IsConnect
| Play
| Stop
| Disconnect
| SyncClose
| SetStream (dataSize : Z).

(** The history of a [SyncBuffer]: its calls, the latest first. *)
Definition SyncBuffer : Type := list SdkCall.

(** What the SDK and the network answer, given the calls made before.
    ([getSinkName] and [getSinkConfigure] are only printed by the adapter,
    and the adapter's console output is not part of the model.) *)
Record World : Type := mkWorld {
  find_result : SyncBuffer -> Z;              (* int count = find() *)
  sink_address : SyncBuffer -> Z -> string;   (* getSinkAddr(i).toString() *)
  is_connect : SyncBuffer -> bool             (* is_connect() *)
}.

(** ** The adapter: class [DirettaOutputSimple]

    [m_syncBuffer] is allocated by the constructor and released only by the
    destructor, so that the pointer is never null while a method runs: the
    field holds the history of the object it points to. *)
Record DirettaOutputSimple : Type := mkAdapter {
  m_syncBuffer : SyncBuffer;
  m_targetAddress : string;
  m_selectedTargetIndex : Z;      (* int *)
  m_currentFormat : AudioFormat;
  m_bufferSeconds : Q;            (* float *)
  m_playing : bool;
  m_isPaused : bool;
  m_thredMode : Z;
  m_cycleTime : Z;
  m_cycleMinTime : Z;
  m_infoCycle : Z;
  m_mtu : Z;
  m_totalSamplesSent : Z          (* uint64_t *)
}.

(** The constructor. *)
Definition init : DirettaOutputSimple :=
  mkAdapter [] EmptyString (-1) zero_format (2 # 1) false false
            1 10000 333 5000 0 0.

(** Field updates. *)
Definition set_syncBuffer (v : SyncBuffer) (d : DirettaOutputSimple) :=
  mkAdapter v (m_targetAddress d) (m_selectedTargetIndex d)
    (m_currentFormat d) (m_bufferSeconds d) (m_playing d) (m_isPaused d)
    (m_thredMode d) (m_cycleTime d) (m_cycleMinTime d) (m_infoCycle d)
    (m_mtu d) (m_totalSamplesSent d).

Definition set_target (index : Z) (address : string)
  (d : DirettaOutputSimple) :=
  mkAdapter (m_syncBuffer d) address index
    (m_currentFormat d) (m_bufferSeconds d) (m_playing d) (m_isPaused d)
    (m_thredMode d) (m_cycleTime d) (m_cycleMinTime d) (m_infoCycle d)
    (m_mtu d) (m_totalSamplesSent d).

Definition set_format (f : AudioFormat) (secs : Q)
  (d : DirettaOutputSimple) :=
  mkAdapter (m_syncBuffer d) (m_targetAddress d) (m_selectedTargetIndex d)
    f secs (m_playing d) (m_isPaused d)
    (m_thredMode d) (m_cycleTime d) (m_cycleMinTime d) (m_infoCycle d)
    (m_mtu d) (m_totalSamplesSent d).

Definition set_playing (v : bool) (d : DirettaOutputSimple) :=
  mkAdapter (m_syncBuffer d) (m_targetAddress d) (m_selectedTargetIndex d)
    (m_currentFormat d) (m_bufferSeconds d) v (m_isPaused d)
    (m_thredMode d) (m_cycleTime d) (m_cycleMinTime d) (m_infoCycle d)
    (m_mtu d) (m_totalSamplesSent d).

Definition set_isPaused (v : bool) (d : DirettaOutputSimple) :=
  mkAdapter (m_syncBuffer d) (m_targetAddress d) (m_selectedTargetIndex d)
    (m_currentFormat d) (m_bufferSeconds d) (m_playing d) v
    (m_thredMode d) (m_cycleTime d) (m_cycleMinTime d) (m_infoCycle d)
    (m_mtu d) (m_totalSamplesSent d).

Definition set_totalSamplesSent (v : Z) (d : DirettaOutputSimple) :=
  mkAdapter (m_syncBuffer d) (m_targetAddress d) (m_selectedTargetIndex d)
    (m_currentFormat d) (m_bufferSeconds d) (m_playing d) (m_isPaused d)
    (m_thredMode d) (m_cycleTime d) (m_cycleMinTime d) (m_infoCycle d)
    (m_mtu d) v.

(** The inline setters of the header. *)
Definition setThredMode (mode : Z) (d : DirettaOutputSimple) :=
  mkAdapter (m_syncBuffer d) (m_targetAddress d) (m_selectedTargetIndex d)
    (m_currentFormat d) (m_bufferSeconds d) (m_playing d) (m_isPaused d)
    mode (m_cycleTime d) (m_cycleMinTime d) (m_infoCycle d)
    (m_mtu d) (m_totalSamplesSent d).

Definition setCycleTime (us : Z) (d : DirettaOutputSimple) :=
  mkAdapter (m_syncBuffer d) (m_targetAddress d) (m_selectedTargetIndex d)
    (m_currentFormat d) (m_bufferSeconds d) (m_playing d) (m_isPaused d)
    (m_thredMode d) us (m_cycleMinTime d) (m_infoCycle d)
    (m_mtu d) (m_totalSamplesSent d).

Definition setCycleMinTime (us : Z) (d : DirettaOutputSimple) :=
  mkAdapter (m_syncBuffer d) (m_targetAddress d) (m_selectedTargetIndex d)
    (m_currentFormat d) (m_bufferSeconds d) (m_playing d) (m_isPaused d)
    (m_thredMode d) (m_cycleTime d) us (m_infoCycle d)
    (m_mtu d) (m_totalSamplesSent d).

Definition setInfoCycle (us : Z) (d : DirettaOutputSimple) :=
  mkAdapter (m_syncBuffer d) (m_targetAddress d) (m_selectedTargetIndex d)
    (m_currentFormat d) (m_bufferSeconds d) (m_playing d) (m_isPaused d)
    (m_thredMode d) (m_cycleTime d) (m_cycleMinTime d) us
    (m_mtu d) (m_totalSamplesSent d).

Definition setMTU (mtu : Z) (d : DirettaOutputSimple) :=
  mkAdapter (m_syncBuffer d) (m_targetAddress d) (m_selectedTargetIndex d)
    (m_currentFormat d) (m_bufferSeconds d) (m_playing d) (m_isPaused d)
    (m_thredMode d) (m_cycleTime d) (m_cycleMinTime d) (m_infoCycle d)
    mtu (m_totalSamplesSent d).

(** The getters of the header. *)
Definition isPlaying (d : DirettaOutputSimple) : bool := m_playing d.
Definition isPaused (d : DirettaOutputSimple) : bool := m_isPaused d.
Definition getCurrentFormat (d : DirettaOutputSimple) : AudioFormat :=
  m_currentFormat d.

(** A call on the [SyncBuffer]. *)
Definition call (c : SdkCall) (d : DirettaOutputSimple) :=
  set_syncBuffer (c :: m_syncBuffer d) d.

Section Methods.

Context {ids : FormatIDs}.
Variable w : World.

(** [listAvailableTargets]: discovery, then one [getSinkName] per target. *)
Definition listAvailableTargets (d : DirettaOutputSimple)
  : DirettaOutputSimple :=
  let count := find_result w (m_syncBuffer d) in
  let d := call Find d in
  if count =? 0 then d
  else
    fold_left (fun d i => call (GetSinkName (Z.of_nat i)) d)
              (seq 0 (Z.to_nat count)) d.

(** [selectTarget]. *)
Definition selectTarget (index : Z) (d : DirettaOutputSimple)
  : bool * DirettaOutputSimple :=
  let count := find_result w (m_syncBuffer d) in
  let d := call Find d in
  if count =? 0 then (false, d)
  else if (index <? 0) || (index >=? count) then (false, d)
  else
    let d := call (GetSinkName index) d in
    let addr := sink_address w (m_syncBuffer d) index in
    let d := call (GetSinkAddr index) d in
    (true, set_target index addr d).

(** The test of STEP 4 of [open]. *)
Definition isLowBitrate (format : AudioFormat) : bool :=
  (bitDepth format <=? 16) && (sampleRate format <=? 48000)
  && negb (isDSD format).

(** The wait loop of STEP 6:
    [while (!is_connect() && waitedMs < timeoutMs) { sleep; waitedMs += 100; }]
    with [timeoutMs = 10000].  [remaining] counts the sleeps still allowed,
    [waitedMs = 10000 - 100 * remaining]; [is_connect()] is evaluated first
    at every test. *)
Fixpoint wait_connect (remaining : nat) (d : DirettaOutputSimple)
  : DirettaOutputSimple :=
  let connected := is_connect w (m_syncBuffer d) in
  let d := call IsConnect d in
  match remaining with
  | O => d
  | S remaining' => if connected then d else wait_connect remaining' d
  end.

(** [open]. *)
Definition open (format : AudioFormat) (bufferSeconds : Q)
  (d : DirettaOutputSimple) : bool * DirettaOutputSimple :=
  if m_selectedTargetIndex d <? 0 then (false, d)
  else
    let d := set_format format bufferSeconds d in
    (* STEP 1 *)
    let d := call (SyncOpen (m_thredMode d)) d in
    (* STEP 2 *)
    let mtu := if m_mtu d >? 0 then m_mtu d else 16128 in
    let d := call (SetSink (m_targetAddress d) mtu) d in
    (* STEP 3 *)
    let formatID := buildFormatID format in
    let d := call (SetSinkConfigure formatID) d in
    let d := call GetSinkConfigure d in
    (* STEP 4 *)
    let d :=
      if isLowBitrate format then
        call (ConfigTransferAuto (m_infoCycle d) (m_cycleMinTime d)
                                 (m_cycleTime d)) d
      else call (ConfigTransferVarMax (m_infoCycle d)) d in
    (* STEP 5 *)
    let framesPerSecond := Int.int32 (sampleRate format) in
    let d := call (SetupBuffer framesPerSecond bufferSeconds) d in
    (* STEP 6 *)
    let d := call Connect d in
    let d := wait_connect 100 d in
    let connected := is_connect w (m_syncBuffer d) in
    let d := call IsConnect d in
    if negb connected then (false, d)
    else
      (* STEP 7 *)
      let d := call Play d in
      (true, set_totalSamplesSent 0 (set_isPaused false (set_playing true d))).

(** The size computed by [sendAudio] for the stream. *)
Definition dataSize (format : AudioFormat) (numSamples : Z) : Z :=
  if isDSD format then
    Int.size_t (numSamples * channels format) / 8
  else
    let bytesPerSample :=
      Int.size_t ((bitDepth format / 8) * channels format) in
    Int.size_t (numSamples * bytesPerSample).

(** [sendAudio]: [data] is only read by [memcpy], over [dataSize] bytes. *)
Definition sendAudio (numSamples : Z) (d : DirettaOutputSimple)
  : bool * DirettaOutputSimple :=
  if negb (m_playing d) then (false, d)
  else if m_isPaused d then (true, d)
  else
    let d := call (SetStream (dataSize (m_currentFormat d) numSamples)) d in
    (true,
     set_totalSamplesSent (Int.size_t (m_totalSamplesSent d + numSamples)) d).

(** [disconnectFromTarget]. *)
Definition disconnectFromTarget (d : DirettaOutputSimple)
  : DirettaOutputSimple :=
  call SyncClose (call Disconnect d).

(** [changeFormat]. *)
Definition changeFormat (newFormat : AudioFormat) (d : DirettaOutputSimple)
  : bool * DirettaOutputSimple :=
  let d := if m_playing d then disconnectFromTarget (call Stop d) else d in
  open newFormat (m_bufferSeconds d) d.

(** [pause]. *)
Definition pause (d : DirettaOutputSimple) : DirettaOutputSimple :=
  if negb (m_playing d) || m_isPaused d then d
  else set_isPaused true (call Stop d).

(** [resume]. *)
Definition resume (d : DirettaOutputSimple) : DirettaOutputSimple :=
  if negb (m_playing d) || negb (m_isPaused d) then d
  else set_isPaused false (call Play d).

(** [close]. *)
Definition close (d : DirettaOutputSimple) : DirettaOutputSimple :=
  if negb (m_playing d) then d
  else
    set_isPaused false
      (set_playing false (disconnectFromTarget (call Stop d))).

(** ** Histories of method calls *)

Inductive Op : Type :=
| SetThredMode (mode : Z)
| SetCycleTime (us : Z)
| SetCycleMinTime (us : Z)
| SetInfoCycle (us : Z)
| SetMTU (mtu : Z)
| ListAvailableTargets
| SelectTarget (index : Z)
| Open (format : AudioFormat) (bufferSeconds : Q)
| SendAudio (numSamples : Z)
| ChangeFormat (newFormat : AudioFormat)
| Pause
| Resume
| Close.

(** One method call: its result ([true] for the [void] methods) and the
    adapter after it. *)
Definition step (op : Op) (d : DirettaOutputSimple)
  : bool * DirettaOutputSimple :=
  match op with
  | SetThredMode m => (true, setThredMode m d)
  | SetCycleTime u => (true, setCycleTime u d)
  | SetCycleMinTime u => (true, setCycleMinTime u d)
  | SetInfoCycle u => (true, setInfoCycle u d)
  | SetMTU m => (true, setMTU m d)
  | ListAvailableTargets => (true, listAvailableTargets d)
  | SelectTarget i => selectTarget i d
  | Open f s => open f s d
  | SendAudio n => sendAudio n d
  | ChangeFormat f => changeFormat f d
  | Pause => (true, pause d)
  | Resume => (true, resume d)
  | Close => (true, close d)
  end.

(** A history: the calls made with their results, the latest first. *)
Definition History : Type := list (Op * bool).

(** Running a list of calls, in order, from a history and a state. *)
Fixpoint run (ops : list Op) (h : History) (d : DirettaOutputSimple)
  : History * DirettaOutputSimple :=
  match ops with
  | [] => (h, d)
  | op :: ops' =>
      let (r, d') := step op d in run ops' ((op, r) :: h) d'
  end.

(** Has [selectTarget] returned true in the history? *)
Definition selected_once (h : History) : bool :=
  existsb (fun e => match e with
                    | (SelectTarget _, true) => true
                    | _ => false
                    end) h.

(** Has an [open] succeeded (directly or inside [changeFormat]) with no
    [close] after it? *)
Fixpoint opened_not_closed (h : History) : bool :=
  match h with
  | [] => false
  | (Open _ _, true) :: _ => true
  | (ChangeFormat _, true) :: _ => true
  | (Close, _) :: _ => false
  | _ :: h' => opened_not_closed h'
  end.

(** The format most recently passed to [open] (directly or by
    [changeFormat]). *)
Fixpoint last_opened (h : History) : option AudioFormat :=
  match h with
  | [] => None
  | (Open f _, _) :: _ => Some f
  | (ChangeFormat f, _) :: _ => Some f
  | _ :: h' => last_opened h'
  end.

End Methods.

(** ** The bridge: [main] of the wrapper

    [parse_args] fills a [Config]; the fields that only go to the child's
    command line are left out. *)
Record Config : Type := mkConfig {
  sample_format : Z;      (* int, option -a *)
  diretta_target : Z;     (* unsigned, option -t, 1-based *)
  buffer_seconds : Q;     (* float *)
  thread_mode : Z;
  cycle_time : Z;
  cycle_min_time : Z;
  info_cycle : Z;
  mtu : Z;
  list_targets : bool
}.

(** One turn of [while (running)]: the value of the flag when it is tested
    (a signal handler clears it), and the result of the [read] that
    follows. *)
Record ReadStep : Type := mkRead {
  running : bool;
  bytes_read : Z          (* ssize_t *)
}.

(** What the operating system answers to [main]. *)
Record Process : Type := mkProcess {
  pipe_ok : bool;         (* pipe(pipefd) != -1 *)
  fork_pid : Z;           (* fork(): -1, 0 in the child, or the child's pid *)
  reads : list ReadStep
}.

(** The lines [main] itself prints (the banner and the numbers inside the
    lines are left out). *)
Inductive Message : Type :=
| FailedSelectTarget    (* cerr: Failed to select Diretta target N *)
| FailedPipe            (* cerr: Failed to create pipe *)
| FailedFork            (* cerr: Failed to fork *)
| SqueezeliteStarted    (* cout: Squeezelite started (PID: N) *)
| FailedOpen            (* cerr: Failed to open Diretta output *)
| Streaming             (* cout: Connected to Diretta DAC / Streaming audio... *)
| SqueezeliteClosed     (* cout: Squeezelite closed *)
| ReadError             (* cerr: Error reading from squeezelite: ... *)
| FailedSend            (* cerr: Failed to send audio to Diretta *)
| ShuttingDown          (* cout: Shutting down... *)
| Stopped.              (* cout: Stopped *)

(** What [main] does that can be seen from outside the adapter, the latest
    first.  [CallSendAudio n] marks a call [diretta.sendAudio(_, n)]. *)
Inductive Event : Type :=
| Say (m : Message)
| CallSendAudio (num_samples : Z)
| ClosePipe             (* close(pipefd[0]) *)
| KillChild             (* kill(squeezelite_pid, SIGTERM) *)
| WaitChild.            (* waitpid(squeezelite_pid, nullptr, 0) *)

(** How the loop ends: it is left (flag cleared or [break]); or the division
    by [bytes_per_frame] is a division by zero; or the script of reads is
    used up and the bridge is inside [read]. *)
Inductive LoopEnd : Type :=
| Left_
| DivideByZero
| InRead.

(** How [main] ends. *)
Inductive Outcome : Type :=
| Exit (code : Z)
| ChildProcess          (* fork() returned 0: this is the decoder's process *)
| Crash                 (* division by zero *)
| Reading.              (* still inside read() *)

Section Bridge.

Context {ids : FormatIDs}.
Variable w : World.

(** The loop of [main]: [while (running) { read; ...; sendAudio; }]. *)
Fixpoint pump (bytes_per_frame chans : Z) (script : list ReadStep)
  (d : DirettaOutputSimple) (log : list Event)
  : LoopEnd * DirettaOutputSimple * list Event :=
  match script with
  | [] => (InRead, d, log)
  | r :: script' =>
      if negb (running r) then (Left_, d, log)
      else if bytes_read r <=? 0 then
        if bytes_read r =? 0 then (Left_, d, Say SqueezeliteClosed :: log)
        else (Left_, d, Say ReadError :: log)
      else if bytes_per_frame =? 0 then (DivideByZero, d, log)
      else
        let num_samples :=
          Int.size_t (Int.size_t (bytes_read r) / bytes_per_frame * chans) in
        let (ok, d') := sendAudio num_samples d in
        let log := CallSendAudio num_samples :: log in
        if negb ok then (Left_, d', Say FailedSend :: log)
        else pump bytes_per_frame chans script' d' log
  end.

(** The cleanup after the loop. *)
Definition cleanup (pid : Z) (d : DirettaOutputSimple) (log : list Event)
  : DirettaOutputSimple * list Event :=
  let log := Say ShuttingDown :: log in
  let d := close d in
  let log := ClosePipe :: log in
  let log := if pid >? 0 then WaitChild :: KillChild :: log else log in
  (d, Say Stopped :: log).

(** "Create Diretta output" and "Configure Diretta" of [main]. *)
Definition configure (cfg : Config) : DirettaOutputSimple :=
  let d := init in
  let d := setThredMode (thread_mode cfg) d in
  let d := setCycleTime (cycle_time cfg) d in
  let d := setCycleMinTime (cycle_min_time cfg) d in
  let d := setInfoCycle (info_cycle cfg) d in
  if mtu cfg >? 0 then setMTU (mtu cfg) d else d.

(** The format that [main] assumes for the stream. *)
Definition assumed_format (cfg : Config) : AudioFormat :=
  mkFormat 44100 (Int.uint8 (sample_format cfg)) 2 false.

(** [main], after [parse_args].  The destructor of [diretta] runs [close]
    at every [return]. *)
Definition main (cfg : Config) (p : Process)
  : Outcome * DirettaOutputSimple * list Event :=
  let d := configure cfg in
  if list_targets cfg then (Exit 0, close (listAvailableTargets w d), [])
  else
    let (selected, d) :=
      selectTarget w (Int.int32 (diretta_target cfg - 1)) d in
    if negb selected then (Exit 1, close d, [Say FailedSelectTarget])
    else if negb (pipe_ok p) then (Exit 1, close d, [Say FailedPipe])
    else if fork_pid p =? -1 then (Exit 1, close d, [Say FailedFork])
    else if fork_pid p =? 0 then (ChildProcess, d, [])
    else
      let log := [Say SqueezeliteStarted] in
      let format := assumed_format cfg in
      let (opened, d) := open w format (buffer_seconds cfg) d in
      if negb opened then
        (Exit 1, close d, KillChild :: Say FailedOpen :: log)
      else
        let log := Say Streaming :: log in
        let bytes_per_frame :=
          Int.size_t ((bitDepth format / 8) * channels format) in
        match pump bytes_per_frame (channels format) (reads p) d log with
        | (Left_, d, log) =>
            let (d, log) := cleanup (fork_pid p) d log in
            (Exit 0, close d, log)
        | (DivideByZero, d, log) => (Crash, d, log)
        | (InRead, d, log) => (Reading, d, log)
        end.

End Bridge.

(** ** The in-process backend (output_diretta.c)

    The body of [while (diretta_state.running)] in [output_thread_diretta],
    for a turn that found [frames > 0] in the output buffer: the result of
    [sendAudio] only decides whether a warning is logged; the frames are
    marked as written and the loop goes on in both cases.  The result is
    (warning logged, adapter, frames marked as written). *)
Definition output_thread_turn (current_format : AudioFormat) (frames : Z)
  (d : DirettaOutputSimple) : bool * DirettaOutputSimple * Z :=
  let frames := if frames >? 8192 then 8192 else frames in
  let num_samples := Int.size_t (frames * channels current_format) in
  let (ok, d') := sendAudio num_samples d in
  (negb ok, d', frames).

(** ** Auxiliary definitions for the proofs *)

(** A switch over constants, read as a table. *)
Fixpoint lookup (k : Z) (t : list (Z * FormatID)) : option FormatID :=
  match t with
  | [] => None
  | (k', v) :: t' => if k =? k' then Some v else lookup k t'
  end.

(** The calls of discovery: [find] and [getSinkName]. *)
Definition is_discovery (c : SdkCall) : bool :=
  match c with
  | Find | GetSinkName _ => true
  | _ => false
  end.

(** The two transfer configurations. *)
Inductive TransferMode : Type :=
| SmallPackets          (* configTransferAuto *)
| LargePackets.         (* configTransferVarMax *)

Fixpoint transfer_modes (calls : SyncBuffer) : list TransferMode :=
  match calls with
  | [] => []
  | ConfigTransferAuto _ _ _ :: calls' => SmallPackets :: transfer_modes calls'
  | ConfigTransferVarMax _ :: calls' => LargePackets :: transfer_modes calls'
  | _ :: calls' => transfer_modes calls'
  end.

(** The calls of [open] from STEP 1 to the last test of the wait loop, when
    that loop has tested [is_connect()] [S polls] times, the latest first. *)
Definition open_calls (format : AudioFormat) (bufferSeconds : Q)
  (d : DirettaOutputSimple) (polls : nat) {ids : FormatIDs} : SyncBuffer :=
  repeat IsConnect (S polls) ++
  [Connect;
   SetupBuffer (Int.int32 (sampleRate format)) bufferSeconds;
   (if isLowBitrate format then
      ConfigTransferAuto (m_infoCycle d) (m_cycleMinTime d) (m_cycleTime d)
    else ConfigTransferVarMax (m_infoCycle d));
   GetSinkConfigure;
   SetSinkConfigure (buildFormatID format);
   SetSink (m_targetAddress d) (if m_mtu d >? 0 then m_mtu d else 16128);
   SyncOpen (m_thredMode d)] ++ m_syncBuffer d.

(** The adapter as the constructor left it, but for the tuning fields and
    for discovery calls on the SDK. *)
Definition untouched (d : DirettaOutputSimple) : Prop :=
  m_selectedTargetIndex d = -1 /\ m_targetAddress d = EmptyString /\
  m_playing d = false /\ m_isPaused d = false /\
  m_currentFormat d = zero_format /\ m_totalSamplesSent d = 0 /\
  forallb is_discovery (m_syncBuffer d) = true.

(** The size of the stream, as the product of the sample count, the channel
    count and the bytes of one sample (PCM), or as the bits of all channels
    packed into bytes (DSD), in [size_t]. *)
Definition stream_bytes (format : AudioFormat) (numSamples : Z) : Z :=
  if isDSD format then Int.size_t (numSamples * channels format) / 8
  else Int.size_t (numSamples * channels format * (bitDepth format / 8)).

(** The sample count that the loop of [main] derives from one [read]. *)
Definition samples_of_read (bytes_per_frame chans : Z) (r : ReadStep) : Z :=
  Int.size_t (Int.size_t (bytes_read r) / bytes_per_frame * chans).

(** The arguments of the calls of [sendAudio] in a log of [main]. *)
Fixpoint sent_samples (log : list Event) : list Z :=
  match log with
  | [] => []
  | CallSendAudio n :: log' => n :: sent_samples log'
  | _ :: log' => sent_samples log'
  end.

(** ** Sample surroundings, to run the definitions

    An assignment of the identifiers with the container in bits 0-3, the
    rate in bits 4-7 and the channels in bit 8 (the SDK's own values are
    not in the repository), two networks, three formats and the default
    configuration of the wrapper. *)
Module Sample.

Definition ids : FormatIDs := {|
  FMT_INVALID := 0;
  FMT_DSD_SIZ_32 := 1;
  FMT_DSD_R64 := 16;
  FMT_DSD_R128 := 32;
  FMT_DSD_R256 := 48;
  FMT_DSD_R512 := 64;
  FMT_DSD_R1024 := 80;
  FMT_PCM_SIGNED_16 := 2;
  FMT_PCM_SIGNED_24 := 3;
  FMT_PCM_SIGNED_32 := 4;
  FMT_PCM_R44100 := 16;
  FMT_PCM_R48000 := 32;
  FMT_PCM_R88200 := 48;
  FMT_PCM_R96000 := 64;
  FMT_PCM_R176400 := 80;
  FMT_PCM_R192000 := 96;
  FMT_PCM_R352800 := 112;
  FMT_PCM_R384000 := 128;
  FMT_PCM_R705600 := 144;
  FMT_PCM_R768000 := 160;
  FMT_CH_2_0 := 256
|}.

Definition tmask : Z := 15.
Definition rmask : Z := 240.

Definition address (i : Z) : string :=
  if i =? 0 then "192.168.1.20"%string else "192.168.1.21"%string.

(** Two targets; the connection is up at the first test. *)
Definition online : World := mkWorld (fun _ => 2) (fun _ => address)
                                     (fun _ => true).

(** Two targets; the connection never comes up. *)
Definition down : World := mkWorld (fun _ => 2) (fun _ => address)
                                   (fun _ => false).

(** Two targets; the connection is up until the first [disconnect] and
    never comes back. *)
Definition one_shot : World :=
  mkWorld (fun _ => 2) (fun _ => address)
          (fun calls => negb (existsb (fun c => match c with
                                                | Disconnect => true
                                                | _ => false
                                                end) calls)).

Definition cd_quality : AudioFormat := mkFormat 44100 16 2 false.
Definition hires : AudioFormat := mkFormat 96000 24 2 false.
Definition dsd64 : AudioFormat := mkFormat 2822400 1 2 true.

Definition config : Config :=
  mkConfig 24 1 (2 # 1) 1 10000 333 5000 0 false.

End Sample.

(** ** Further definitions for the adapter's histories *)

(** The tests of [is_connect()] in a history of the SDK. *)
Definition is_poll (c : SdkCall) : bool :=
  match c with
  | IsConnect => true
  | _ => false
  end.

Definition polls (calls : SyncBuffer) : nat :=
  List.length (filter is_poll calls).

Definition is_play (c : SdkCall) : bool :=
  match c with
  | Play => true
  | _ => false
  end.

(** The sizes of the streams in a history of the SDK, the latest first. *)
Fixpoint stream_sizes (calls : SyncBuffer) : list Z :=
  match calls with
  | [] => []
  | SetStream n :: calls' => n :: stream_sizes calls'
  | _ :: calls' => stream_sizes calls'
  end.

(** Is the adapter paused, by its history: a [pause] while open, with no
    [resume], [close] or successful [open] after it. *)
Fixpoint paused_by_history (h : History) : bool :=
  match h with
  | [] => false
  | (Pause, _) :: h' => opened_not_closed h'
  | (Resume, _) :: _ => false
  | (Close, _) :: _ => false
  | (Open _ _, true) :: _ => false
  | (ChangeFormat _, true) :: _ => false
  | _ :: h' => paused_by_history h'
  end.

(** The samples accepted since the last successful [open]: those of the
    calls of [sendAudio] made while open and not paused, in [uint64_t]. *)
Fixpoint delivered (h : History) : Z :=
  match h with
  | [] => 0
  | (SendAudio n, _) :: h' =>
      if opened_not_closed h' && negb (paused_by_history h')
      then Int.size_t (delivered h' + n)
      else delivered h'
  | (Open _ _, true) :: _ => 0
  | (ChangeFormat _, true) :: _ => 0
  | _ :: h' => delivered h'
  end.


(** The invariant that ties the flags and the counter to the history. *)
Definition counted (h : History) (d : DirettaOutputSimple) : Prop :=
  m_playing d = opened_not_closed h /\
  m_isPaused d = paused_by_history h /\
  m_totalSamplesSent d = delivered h /\
  (m_playing d = false -> m_isPaused d = false).

(** ** The command line of the wrapper: [parse_args] and
    [build_squeezelite_args]

    [std::stoi], [std::stof] and [std::to_string] belong to the C++ library:
    they are parameters, [None] standing for the exception that [stoi] and
    [stof] throw on a string that they cannot convert. *)
Module Cli.

Local Open Scope string_scope.

(** [struct Config], with all its fields. *)
Record Config : Type := mkConfig {
  lms_server : string;           (* -s *)
  player_name : string;          (* -n *)
  mac_address : string;          (* -m *)
  model_name : string;           (* -M *)
  codecs : string;               (* -c *)
  rates : string;                (* -r *)
  sample_format : Z;             (* -a, int *)
  diretta_target : Z;            (* -t, unsigned *)
  buffer_seconds : Q;            (* -b, float *)
  thread_mode : Z;               (* --thread-mode *)
  cycle_time : Z;                (* --cycle-time *)
  cycle_min_time : Z;            (* --cycle-min-time *)
  info_cycle : Z;                (* --info-cycle *)
  mtu : Z;                       (* --mtu *)
  verbose : bool;                (* -v *)
  list_targets : bool;           (* -l *)
  squeezelite_path : string      (* --squeezelite *)
}.

(** The member initializers of [struct Config]. *)
Definition default : Config :=
  mkConfig "" "squeeze2diretta" "" "SqueezeLite" "" "" 24 1 (2 # 1)
           1 10000 333 5000 0 false false "squeezelite".

(** Assignments to one field. *)
Definition set_lms_server (v : string) (c : Config) : Config :=
  mkConfig v (player_name c) (mac_address c) (model_name c) (codecs c)
    (rates c) (sample_format c) (diretta_target c) (buffer_seconds c)
    (thread_mode c) (cycle_time c) (cycle_min_time c) (info_cycle c) (mtu c)
    (verbose c) (list_targets c) (squeezelite_path c).

Definition set_player_name (v : string) (c : Config) : Config :=
  mkConfig (lms_server c) v (mac_address c) (model_name c) (codecs c)
    (rates c) (sample_format c) (diretta_target c) (buffer_seconds c)
    (thread_mode c) (cycle_time c) (cycle_min_time c) (info_cycle c) (mtu c)
    (verbose c) (list_targets c) (squeezelite_path c).

Definition set_mac_address (v : string) (c : Config) : Config :=
  mkConfig (lms_server c) (player_name c) v (model_name c) (codecs c)
    (rates c) (sample_format c) (diretta_target c) (buffer_seconds c)
    (thread_mode c) (cycle_time c) (cycle_min_time c) (info_cycle c) (mtu c)
    (verbose c) (list_targets c) (squeezelite_path c).

Definition set_model_name (v : string) (c : Config) : Config :=
  mkConfig (lms_server c) (player_name c) (mac_address c) v (codecs c)
    (rates c) (sample_format c) (diretta_target c) (buffer_seconds c)
    (thread_mode c) (cycle_time c) (cycle_min_time c) (info_cycle c) (mtu c)
    (verbose c) (list_targets c) (squeezelite_path c).

Definition set_codecs (v : string) (c : Config) : Config :=
  mkConfig (lms_server c) (player_name c) (mac_address c) (model_name c) v
    (rates c) (sample_format c) (diretta_target c) (buffer_seconds c)
    (thread_mode c) (cycle_time c) (cycle_min_time c) (info_cycle c) (mtu c)
    (verbose c) (list_targets c) (squeezelite_path c).

Definition set_rates (v : string) (c : Config) : Config :=
  mkConfig (lms_server c) (player_name c) (mac_address c) (model_name c)
    (codecs c) v (sample_format c) (diretta_target c) (buffer_seconds c)
    (thread_mode c) (cycle_time c) (cycle_min_time c) (info_cycle c) (mtu c)
    (verbose c) (list_targets c) (squeezelite_path c).

Definition set_sample_format (v : Z) (c : Config) : Config :=
  mkConfig (lms_server c) (player_name c) (mac_address c) (model_name c)
    (codecs c) (rates c) v (diretta_target c) (buffer_seconds c)
    (thread_mode c) (cycle_time c) (cycle_min_time c) (info_cycle c) (mtu c)
    (verbose c) (list_targets c) (squeezelite_path c).

Definition set_diretta_target (v : Z) (c : Config) : Config :=
  mkConfig (lms_server c) (player_name c) (mac_address c) (model_name c)
    (codecs c) (rates c) (sample_format c) v (buffer_seconds c)
    (thread_mode c) (cycle_time c) (cycle_min_time c) (info_cycle c) (mtu c)
    (verbose c) (list_targets c) (squeezelite_path c).

Definition set_buffer_seconds (v : Q) (c : Config) : Config :=
  mkConfig (lms_server c) (player_name c) (mac_address c) (model_name c)
    (codecs c) (rates c) (sample_format c) (diretta_target c) v
    (thread_mode c) (cycle_time c) (cycle_min_time c) (info_cycle c) (mtu c)
    (verbose c) (list_targets c) (squeezelite_path c).

Definition set_thread_mode (v : Z) (c : Config) : Config :=
  mkConfig (lms_server c) (player_name c) (mac_address c) (model_name c)
    (codecs c) (rates c) (sample_format c) (diretta_target c)
    (buffer_seconds c) v (cycle_time c) (cycle_min_time c) (info_cycle c)
    (mtu c) (verbose c) (list_targets c) (squeezelite_path c).

Definition set_cycle_time (v : Z) (c : Config) : Config :=
  mkConfig (lms_server c) (player_name c) (mac_address c) (model_name c)
    (codecs c) (rates c) (sample_format c) (diretta_target c)
    (buffer_seconds c) (thread_mode c) v (cycle_min_time c) (info_cycle c)
    (mtu c) (verbose c) (list_targets c) (squeezelite_path c).

Definition set_cycle_min_time (v : Z) (c : Config) : Config :=
  mkConfig (lms_server c) (player_name c) (mac_address c) (model_name c)
    (codecs c) (rates c) (sample_format c) (diretta_target c)
    (buffer_seconds c) (thread_mode c) (cycle_time c) v (info_cycle c)
    (mtu c) (verbose c) (list_targets c) (squeezelite_path c).

Definition set_info_cycle (v : Z) (c : Config) : Config :=
  mkConfig (lms_server c) (player_name c) (mac_address c) (model_name c)
    (codecs c) (rates c) (sample_format c) (diretta_target c)
    (buffer_seconds c) (thread_mode c) (cycle_time c) (cycle_min_time c) v
    (mtu c) (verbose c) (list_targets c) (squeezelite_path c).

Definition set_mtu (v : Z) (c : Config) : Config :=
  mkConfig (lms_server c) (player_name c) (mac_address c) (model_name c)
    (codecs c) (rates c) (sample_format c) (diretta_target c)
    (buffer_seconds c) (thread_mode c) (cycle_time c) (cycle_min_time c)
    (info_cycle c) v (verbose c) (list_targets c) (squeezelite_path c).

Definition set_verbose (v : bool) (c : Config) : Config :=
  mkConfig (lms_server c) (player_name c) (mac_address c) (model_name c)
    (codecs c) (rates c) (sample_format c) (diretta_target c)
    (buffer_seconds c) (thread_mode c) (cycle_time c) (cycle_min_time c)
    (info_cycle c) (mtu c) v (list_targets c) (squeezelite_path c).

Definition set_list_targets (v : bool) (c : Config) : Config :=
  mkConfig (lms_server c) (player_name c) (mac_address c) (model_name c)
    (codecs c) (rates c) (sample_format c) (diretta_target c)
    (buffer_seconds c) (thread_mode c) (cycle_time c) (cycle_min_time c)
    (info_cycle c) (mtu c) (verbose c) v (squeezelite_path c).

Definition set_squeezelite_path (v : string) (c : Config) : Config :=
  mkConfig (lms_server c) (player_name c) (mac_address c) (model_name c)
    (codecs c) (rates c) (sample_format c) (diretta_target c)
    (buffer_seconds c) (thread_mode c) (cycle_time c) (cycle_min_time c)
    (info_cycle c) (mtu c) (verbose c) (list_targets c) v.

(** How [parse_args] ends: with a configuration, in [exit(0)] after the
    usage text, or in an exception of [stoi] or [stof] that nothing
    catches. *)
Inductive Parsed : Type :=
| Args (config : Config)
| Help
| Thrown.

Section Parse.

Variable stoi : string -> option Z.
Variable stof : string -> option Q.
Variable to_string : Z -> string.

(** The options of the first block that takes a value. *)
Definition short_option (arg : string) : bool :=
  (arg =? "-s") || (arg =? "-n") || (arg =? "-m") || (arg =? "-M")
  || (arg =? "-c") || (arg =? "-r") || (arg =? "-a") || (arg =? "-t")
  || (arg =? "-b").

(** The assignments of that block; the conversion of [stoi]'s [int] to the
    [unsigned] field of [-t] is modulo 2^32. *)
Definition set_short (arg value : string) (config : Config)
  : option Config :=
  if arg =? "-s" then Some (set_lms_server value config)
  else if arg =? "-n" then Some (set_player_name value config)
  else if arg =? "-m" then Some (set_mac_address value config)
  else if arg =? "-M" then Some (set_model_name value config)
  else if arg =? "-c" then Some (set_codecs value config)
  else if arg =? "-r" then Some (set_rates value config)
  else if arg =? "-a" then
    option_map (fun n => set_sample_format n config) (stoi value)
  else if arg =? "-t" then
    option_map (fun n => set_diretta_target (Int.uint32 n) config)
               (stoi value)
  else if arg =? "-b" then
    option_map (fun x => set_buffer_seconds x config) (stof value)
  else Some config.

(** The body of [for (int i = 1; i < argc; i++)], on the arguments from
    [argv[i]] on.  An option that takes a value is recognised only when
    another argument follows ([i + 1 < argc]). *)
Fixpoint parse_loop (args : list string) (config : Config) : Parsed :=
  match args with
  | [] => Args config
  | arg :: rest =>
      if (arg =? "-h") || (arg =? "--help") then Help
      else if arg =? "-l" then parse_loop rest (set_list_targets true config)
      else if arg =? "-v" then parse_loop rest (set_verbose true config)
      else
        match rest with
        | [] => Args config
        | value :: rest' =>
            if short_option arg then
              match set_short arg value config with
              | Some config' => parse_loop rest' config'
              | None => Thrown
              end
            else if arg =? "--thread-mode" then
              match stoi value with
              | Some n => parse_loop rest' (set_thread_mode n config)
              | None => Thrown
              end
            else if arg =? "--cycle-time" then
              match stoi value with
              | Some n => parse_loop rest' (set_cycle_time n config)
              | None => Thrown
              end
            else if arg =? "--cycle-min-time" then
              match stoi value with
              | Some n => parse_loop rest' (set_cycle_min_time n config)
              | None => Thrown
              end
            else if arg =? "--info-cycle" then
              match stoi value with
              | Some n => parse_loop rest' (set_info_cycle n config)
              | None => Thrown
              end
            else if arg =? "--mtu" then
              match stoi value with
              | Some n => parse_loop rest' (set_mtu n config)
              | None => Thrown
              end
            else if arg =? "--squeezelite" then
              parse_loop rest' (set_squeezelite_path value config)
            else parse_loop rest config
        end
  end.

(** [parse_args(argc, argv)]: [argv[0]] is skipped. *)
Definition parse_args (argv : list string) : Parsed :=
  parse_loop (tl argv) default.

(** [build_squeezelite_args]. *)
Definition build_squeezelite_args (config : Config) : list string :=
  ([squeezelite_path config; "-o"; "-"; "-a";
    to_string (sample_format config); "-n"; player_name config; "-M";
    model_name config]
   ++ (if lms_server config =? "" then [] else ["-s"; lms_server config])
   ++ (if mac_address config =? "" then [] else ["-m"; mac_address config])
   ++ (if codecs config =? "" then [] else ["-c"; codecs config])
   ++ (if rates config =? "" then [] else ["-r"; rates config]))%list.

End Parse.

(** The options that [build_squeezelite_args] hands on, over the default
    configuration. *)
Definition decoder_options (c : Config) : Config :=
  set_rates (rates c)
    (set_codecs (codecs c)
       (set_mac_address (mac_address c)
          (set_lms_server (lms_server c)
             (set_model_name (model_name c)
                (set_player_name (player_name c)
                   (set_sample_format (sample_format c) default)))))).

End Cli.

(** ** The in-process backend: the entry points of output_diretta.c

    The output thread runs [output_thread_turn] between these calls; it is
    not started by the model, which keeps the fields of [diretta_state] and
    the adapter.  A call through the null pointer is [None]. *)
Module Backend.

Record diretta_state : Type := mkState {
  diretta : option DirettaOutputSimple;   (* DirettaOutputSimple* *)
  target_index : Z;
  buffer_seconds : Q;
  thread_mode : Z;
  cycle_time : Z;
  cycle_min_time : Z;
  info_cycle : Z;
  mtu_override : Z;
  running : bool;
  thread : bool;                          (* a thread was created *)
  current_format : AudioFormat
}.

Definition set_diretta (v : option DirettaOutputSimple)
  (s : diretta_state) : diretta_state :=
  mkState v (target_index s) (buffer_seconds s) (thread_mode s)
    (cycle_time s) (cycle_min_time s) (info_cycle s) (mtu_override s)
    (running s) (thread s) (current_format s).

Definition set_current_format (v : AudioFormat) (s : diretta_state)
  : diretta_state :=
  mkState (diretta s) (target_index s) (buffer_seconds s) (thread_mode s)
    (cycle_time s) (cycle_min_time s) (info_cycle s) (mtu_override s)
    (running s) (thread s) v.

Definition set_thread (is_running has_thread : bool) (s : diretta_state)
  : diretta_state :=
  mkState (diretta s) (target_index s) (buffer_seconds s) (thread_mode s)
    (cycle_time s) (cycle_min_time s) (info_cycle s) (mtu_override s)
    is_running has_thread (current_format s).

Section Entries.

Context {ids : FormatIDs}.
Variable w : World.

(** [output_init_diretta]; [None] is [exit(1)] after a failed selection. *)
Definition output_init_diretta (target : Z) (buffer : Q)
  (thread_mode cycle_time cycle_min_time info_cycle mtu : Z)
  : option diretta_state :=
  let d := init in
  let d := setThredMode thread_mode d in
  let d := setCycleTime cycle_time d in
  let d := setCycleMinTime cycle_min_time d in
  let d := setInfoCycle info_cycle d in
  let d := if mtu >? 0 then setMTU mtu d else d in
  let (selected, d) := selectTarget w (Int.int32 (target - 1)) d in
  if negb selected then None
  else
    Some (mkState (Some d) target buffer thread_mode cycle_time
            cycle_min_time info_cycle mtu false false zero_format).

(** [output_open_diretta]. *)
Definition output_open_diretta (rate channels : Z) (s : diretta_state)
  : option (bool * diretta_state) :=
  let format := mkFormat rate 24 (Int.uint8 channels) false in
  let s := set_current_format format s in
  match diretta s with
  | None => None
  | Some d =>
      let (opened, d) := open w format (buffer_seconds s) d in
      let s := set_diretta (Some d) s in
      if negb opened then Some (false, s)
      else Some (true, set_thread true true s)
  end.

(** [output_rate_change_diretta]. *)
Definition output_rate_change_diretta (rate : Z) (s : diretta_state)
  : option (bool * diretta_state) :=
  let new_format :=
    mkFormat rate (bitDepth (current_format s))
             (channels (current_format s)) (isDSD (current_format s)) in
  match diretta s with
  | None => None
  | Some d =>
      let (changed, d) := changeFormat w new_format d in
      let s := set_diretta (Some d) s in
      if negb changed then Some (false, s)
      else Some (true, set_current_format new_format s)
  end.

End Entries.

(** [output_start_diretta] and [output_stop_diretta], which return true. *)
Definition output_start_diretta (s : diretta_state) : diretta_state :=
  set_diretta (option_map resume (diretta s)) s.

Definition output_stop_diretta (s : diretta_state) : diretta_state :=
  set_diretta (option_map pause (diretta s)) s.

(** [output_close_diretta]: the thread is stopped and joined, then the
    connection is closed. *)
Definition output_close_diretta (s : diretta_state) : diretta_state :=
  set_diretta (option_map close (diretta s)) (set_thread false false s).

(** The [data_size] that [output_thread_diretta] computes for the frames it
    takes from the output buffer (and does not pass on). *)
Definition data_size (current_format : AudioFormat) (frames : Z) : Z :=
  let frames := if frames >? 8192 then 8192 else frames in
  let bytes_per_frame :=
    if isDSD current_format then Int.size_t (channels current_format)
    else
      let bytes_per_sample :=
        if bitDepth current_format <=? 16
        then Int.size_t (bitDepth current_format / 8) else 4 in
      Int.size_t (channels current_format * bytes_per_sample) in
  Int.size_t (frames * bytes_per_frame).

End Backend.

(** ** Sample conversions and a sample command line

    Decimal conversions in the place of [std::to_string] and [std::stoi]
    (plain decimal numbers only), a [stof] for the default buffer length,
    and the command line that the startup script of the repository
    builds. *)
Module SampleCli.

Definition to_string (n : Z) : string :=
  NilZero.string_of_int (Z.to_int n).

Definition stoi (s : string) : option Z :=
  option_map Z.of_int (NilZero.int_of_string s).

Definition stof (s : string) : option Q :=
  if String.eqb s "2.0" then Some (2 # 1) else None.

Definition script_argv : list string :=
  ["/opt/squeeze2diretta/squeeze2diretta"; "--squeezelite";
   "/opt/squeeze2diretta/squeezelite"; "-s"; "192.168.1.100"; "--target";
   "2"; "-n"; "squeeze2diretta"; "-r"; "768000"]%string.

Definition script_config : Cli.Config :=
  Cli.set_rates "768000"
    (Cli.set_player_name "squeeze2diretta"
       (Cli.set_lms_server "192.168.1.100"
          (Cli.set_squeezelite_path "/opt/squeeze2diretta/squeezelite"
             Cli.default))).

End SampleCli.

(** A backend that has been initialised and opened at 44.1 kHz, stereo, on
    the network whose connection does not come back. *)
Module SampleBackend.

Definition opened : Backend.diretta_state :=
  Eval vm_compute in
    match @Backend.output_init_diretta Sample.one_shot 1 (2 # 1)
            1 10000 333 5000 0 with
    | Some s =>
        match @Backend.output_open_diretta Sample.ids Sample.one_shot
                44100 2 s with
        | Some (_, s') => s'
        | None => s
        end
    | None => Backend.mkState None 0 0 0 0 0 0 0 false false zero_format
    end.

Definition adapter : DirettaOutputSimple :=
  Eval vm_compute in
    match Backend.diretta opened with
    | Some d => d
    | None => init
    end.

End SampleBackend.

(** The calls that set a connection up: opening the SDK, naming the sink,
    proposing a format and configuring the transfer. *)
Definition is_setup (c : SdkCall) : bool :=
  match c with
  | SyncOpen _ | SetSink _ _ | SetSinkConfigure _
  | ConfigTransferAuto _ _ _ | ConfigTransferVarMax _ => true
  | _ => false
  end.

Definition setup_calls (calls : SyncBuffer) : SyncBuffer :=
  filter is_setup calls.

(** ** Further definitions for the bridge's loop and the SDK's state *)

(** The reads that the loop of [main] turns into chunks: those made while
    the flag is set and that bring data, up to the first read that does
    not. *)
Fixpoint data_reads (script : list ReadStep) : list ReadStep :=
  match script with
  | [] => []
  | r :: script' =>
      if running r && (0 <? bytes_read r) then r :: data_reads script'
      else []
  end.

(** Is the SDK taking streams, by its history: [play()] was called and no
    [stop()], [disconnect()] or [close()] since. *)
Fixpoint sdk_playing (calls : SyncBuffer) : bool :=
  match calls with
  | [] => false
  | Play :: _ => true
  | Stop :: _ | Disconnect :: _ | SyncClose :: _ => false
  | _ :: calls' => sdk_playing calls'
  end.

(** * Properties *)

(** ** Machine integers *)

Lemma size_t_small x : 0 <= x < Int.size_t_max -> Int.size_t x = x.
Proof. intros H. unfold Int.size_t. now apply Z.mod_small. Qed.

Lemma size_t_mul_idemp_r a b :
  Int.size_t (a * Int.size_t b) = Int.size_t (a * b).
Proof.
  unfold Int.size_t. rewrite Z.mul_mod_idemp_r; [reflexivity|].
  unfold Int.size_t_max. lia.
Qed.

(** ** Lists of flags *)

Lemma mem_In x l : mem x l = true <-> In x l.
Proof.
  unfold mem. rewrite existsb_exists. split.
  - intros (y & Hy & E). apply Z.eqb_eq in E. now subst.
  - intros H. exists x. split; [assumption | apply Z.eqb_refl].
Qed.

Lemma mem_false x l : mem x l = false <-> ~ In x l.
Proof.
  rewrite <- mem_In. destruct (mem x l); split; intros H;
    congruence || (exfalso; now apply H) || discriminate.
Qed.

Lemma distinct_NoDup l : distinct l = true -> NoDup l.
Proof.
  induction l as [|x l IH]; simpl; intros H.
  - constructor.
  - apply andb_prop in H as [Hx Hl]. constructor.
    + apply negb_true_iff in Hx. now apply mem_false.
    + now apply IH.
Qed.

(** ** Switches as tables *)

Lemma lookup_In k t v : lookup k t = Some v -> In (k, v) t.
Proof.
  induction t as [|[k' v'] t IH]; simpl; [discriminate|].
  destruct (Z.eqb_spec k k') as [->|_].
  - intros [= ->]. now left.
  - intros H. right. now apply IH.
Qed.

Lemma lookup_value k t v : lookup k t = Some v -> In v (map snd t).
Proof. intros H. apply lookup_In in H. now apply (in_map snd) in H. Qed.

Lemma lookup_inj t k1 k2 v :
  NoDup (map snd t) ->
  lookup k1 t = Some v -> lookup k2 t = Some v -> k1 = k2.
Proof.
  induction t as [|[k' v'] t IH]; simpl; [discriminate|].
  intros Hnd. inversion Hnd as [|? ? Hnotin Hnd']; subst.
  destruct (Z.eqb_spec k1 k') as [->|_], (Z.eqb_spec k2 k') as [->|_].
  - reflexivity.
  - intros [= ->] H2. exfalso. apply Hnotin. eapply lookup_value, H2.
  - intros H1 [= ->]. exfalso. apply Hnotin. eapply lookup_value, H1.
  - now apply IH.
Qed.

Lemma lookup_mem k t :
  mem k (map fst t) = true -> exists v, lookup k t = Some v.
Proof.
  induction t as [|[k' v'] t IH]; simpl; [discriminate|].
  unfold mem in *. simpl. destruct (Z.eqb_spec k k') as [->|_]; simpl.
  - intros _. now exists v'.
  - exact IH.
Qed.

Lemma lookup_not_mem k t : mem k (map fst t) = false -> lookup k t = None.
Proof.
  induction t as [|[k' v'] t IH]; simpl; [reflexivity|].
  unfold mem in *. simpl. destruct (Z.eqb_spec k k') as [->|_]; simpl.
  - discriminate.
  - exact IH.
Qed.

(** ** The format identifiers *)

Section FormatTable.

Context {ids : FormatIDs}.
Variables tmask rmask : Z.
Hypothesis layout : layout_ok tmask rmask = true.

Lemma dsd_rate_flag_lookup rate :
  dsd_rate_flag rate = lookup rate dsd_rate_table.
Proof. reflexivity. Qed.

Lemma pcm_depth_flag_lookup depth :
  pcm_depth_flag depth = lookup depth pcm_depth_table.
Proof. reflexivity. Qed.

Lemma pcm_rate_flag_lookup rate :
  pcm_rate_flag rate = lookup rate pcm_rate_table.
Proof. reflexivity. Qed.

Lemma layout_parts :
  (forall c, In c container_flags ->
             Z.land c tmask = c /\ Z.land c rmask = 0) /\
  (forall r, In r rate_flags ->
             Z.land r rmask = r /\ Z.land r tmask = 0) /\
  Z.land FMT_CH_2_0 tmask = 0 /\ Z.land FMT_CH_2_0 rmask = 0 /\
  NoDup container_flags /\
  NoDup (map snd dsd_rate_table) /\
  NoDup (map snd pcm_rate_table) /\
  ~ In (Z.land FMT_INVALID tmask) container_flags.
Proof.
  pose proof layout as H. unfold layout_ok in H.
  apply andb_prop in H as [H Hinv]. apply andb_prop in H as [H Hpr].
  apply andb_prop in H as [H Hdr]. apply andb_prop in H as [H Hcf].
  apply andb_prop in H as [H Hchr]. apply andb_prop in H as [H Hcht].
  apply andb_prop in H as [Hc Hr].
  rewrite forallb_forall in Hc, Hr.
  repeat split.
  - specialize (Hc c H). apply andb_prop in Hc as [Hc _]. now apply Z.eqb_eq.
  - specialize (Hc c H). apply andb_prop in Hc as [_ Hc]. now apply Z.eqb_eq.
  - specialize (Hr r H). apply andb_prop in Hr as [Hr _]. now apply Z.eqb_eq.
  - specialize (Hr r H). apply andb_prop in Hr as [_ Hr]. now apply Z.eqb_eq.
  - now apply Z.eqb_eq.
  - now apply Z.eqb_eq.
  - now apply distinct_NoDup.
  - now apply distinct_NoDup.
  - now apply distinct_NoDup.
  - apply mem_false. now apply negb_true_iff.
Qed.

(** The container field and the rate field of a composed identifier. *)
Lemma composed_fields c r :
  In c container_flags -> In r rate_flags ->
  Z.land (Z.lor (Z.lor c r) FMT_CH_2_0) tmask = c /\
  Z.land (Z.lor (Z.lor c r) FMT_CH_2_0) rmask = r.
Proof.
  intros Hc Hr.
  destruct layout_parts as (HC & HR & Ht & Hrm & _).
  destruct (HC c Hc) as [Hc1 Hc2]. destruct (HR r Hr) as [Hr1 Hr2].
  rewrite !Z.land_lor_distr_l, Hc1, Hc2, Hr1, Hr2, Ht, Hrm.
  rewrite !Z.lor_0_r, Z.lor_0_l. split; reflexivity.
Qed.

(** A supported format is mapped to a container flag, a rate flag and the
    stereo flag, found in the tables. *)
Lemma supported_composed f :
  supported f = true ->
  exists c r,
    buildFormatID f = Z.lor (Z.lor c r) FMT_CH_2_0 /\
    In c container_flags /\ In r rate_flags /\
    if isDSD f then
      c = FMT_DSD_SIZ_32 /\ lookup (sampleRate f) dsd_rate_table = Some r
    else
      lookup (bitDepth f) pcm_depth_table = Some c /\
      lookup (sampleRate f) pcm_rate_table = Some r.
Proof.
  unfold supported, buildFormatID. destruct (isDSD f).
  - intros H.
    destruct (lookup_mem (sampleRate f) dsd_rate_table H) as [r Hr].
    rewrite dsd_rate_flag_lookup, Hr. exists FMT_DSD_SIZ_32, r.
    repeat split; trivial.
    + now left.
    + unfold rate_flags. apply in_or_app. left. eapply lookup_value, Hr.
  - intros H. apply andb_prop in H as [Hd Hr].
    destruct (lookup_mem (bitDepth f) pcm_depth_table Hd) as [c Hc].
    destruct (lookup_mem (sampleRate f) pcm_rate_table Hr) as [r Hr'].
    rewrite pcm_depth_flag_lookup, Hc, pcm_rate_flag_lookup, Hr'.
    exists c, r. repeat split; trivial.
    + right. eapply lookup_value, Hc.
    + unfold rate_flags. apply in_or_app. right. eapply lookup_value, Hr'.
Qed.

Lemma supported_not_invalid f :
  supported f = true -> buildFormatID f <> FMT_INVALID.
Proof.
  intros H. destruct (supported_composed f H) as (c & r & E & Hc & Hr & _).
  intros Hinv. destruct layout_parts as (_ & _ & _ & _ & _ & _ & _ & Hno).
  apply Hno. rewrite <- Hinv, E.
  destruct (composed_fields c r Hc Hr) as [-> _]. exact Hc.
Qed.

Lemma supported_injective f g :
  supported f = true -> supported g = true ->
  buildFormatID f = buildFormatID g -> combination f = combination g.
Proof.
  intros Hf Hg E.
  destruct (supported_composed f Hf) as (c & r & Ef & Hc & Hr & Tf).
  destruct (supported_composed g Hg) as (c' & r' & Eg & Hc' & Hr' & Tg).
  destruct (composed_fields c r Hc Hr) as [Fc Fr].
  destruct (composed_fields c' r' Hc' Hr') as [Fc' Fr'].
  rewrite <- Ef, E, Eg in Fc, Fr.
  assert (c = c') by congruence. assert (r = r') by congruence.
  subst c' r'. clear Fc Fr Fc' Fr' Ef Eg E.
  destruct layout_parts as (_ & _ & _ & _ & NDc & NDd & NDp & _).
  unfold combination.
  destruct (isDSD f), (isDSD g).
  - destruct Tf as [_ Tf], Tg as [_ Tg].
    now rewrite (lookup_inj _ _ _ _ NDd Tf Tg).
  - exfalso. destruct Tf as [-> _], Tg as [Tg _].
    inversion NDc as [|? ? Hnotin _]. apply Hnotin.
    exact (lookup_value _ pcm_depth_table _ Tg).
  - exfalso. destruct Tg as [-> _], Tf as [Tf _].
    inversion NDc as [|? ? Hnotin _]. apply Hnotin.
    exact (lookup_value _ pcm_depth_table _ Tf).
  - destruct Tf as [Df Rf], Tg as [Dg Rg].
    inversion NDc as [|? ? _ NDpc]; subst.
    rewrite (lookup_inj pcm_depth_table _ _ _ NDpc Df Dg).
    now rewrite (lookup_inj _ _ _ _ NDp Rf Rg).
Qed.

Lemma unsupported_invalid f :
  supported f = false -> buildFormatID f = FMT_INVALID.
Proof.
  unfold supported, buildFormatID. destruct (isDSD f).
  - intros H. rewrite dsd_rate_flag_lookup.
    now rewrite (lookup_not_mem _ dsd_rate_table H).
  - intros H. apply andb_false_iff in H as [H|H].
    + rewrite pcm_depth_flag_lookup.
      now rewrite (lookup_not_mem _ pcm_depth_table H).
    + rewrite pcm_rate_flag_lookup.
      rewrite (lookup_not_mem _ pcm_rate_table H).
      now destruct (pcm_depth_flag (bitDepth f)).
Qed.

End FormatTable.

(** C1.  Given the layout of the SDK's enumerators (container flags in one
    bit field, rate flags in another, the channel flag outside both, flags of
    one kind pairwise different, and [FMT_INVALID] with none of the
    container flags in its container field), [buildFormatID], which is a
    total function, maps every supported combination to an identifier
    different from [FMT_INVALID] and from the identifier of every other
    supported combination, and every unsupported combination to
    [FMT_INVALID]. *)
Theorem buildFormatID_table {ids : FormatIDs} (tmask rmask : Z) :
  layout_ok tmask rmask = true ->
  (forall f, supported f = true ->
     buildFormatID f <> FMT_INVALID /\
     forall g, supported g = true -> combination g <> combination f ->
               buildFormatID g <> buildFormatID f) /\
  (forall f, supported f = false -> buildFormatID f = FMT_INVALID).
Proof.
  intros layout. split.
  - intros f Hf. split.
    + now apply (supported_not_invalid tmask rmask).
    + intros g Hg Hne E. apply Hne.
      now apply (supported_injective tmask rmask).
  - apply unsupported_invalid.
Qed.

Lemma buildFormatID_table_witness :
  @layout_ok Sample.ids Sample.tmask Sample.rmask = true /\
  ((forall f, supported f = true ->
      @buildFormatID Sample.ids f <> @FMT_INVALID Sample.ids /\
      forall g, supported g = true -> combination g <> combination f ->
                @buildFormatID Sample.ids g <> @buildFormatID Sample.ids f) /\
   (forall f, supported f = false ->
      @buildFormatID Sample.ids f = @FMT_INVALID Sample.ids)).
Proof.
  split.
  - reflexivity.
  - apply (@buildFormatID_table Sample.ids Sample.tmask Sample.rmask).
    reflexivity.
Defined.

(** ** The adapter: frame lemmas *)

Lemma set_syncBuffer_call v c d :
  set_syncBuffer v (call c d) = set_syncBuffer v d.
Proof. reflexivity. Qed.

Lemma repeat_shift {A} (x : A) n l :
  repeat x n ++ x :: l = repeat x (S n) ++ l.
Proof.
  induction n as [|n IH]; simpl; [reflexivity|]. now rewrite IH.
Qed.

Section AdapterFacts.

Context {ids : FormatIDs}.
Variable w : World.

(** The wait loop only polls [is_connect()], at least once and at most 101
    times. *)
Lemma wait_connect_polls remaining d :
  exists polls, (polls <= remaining)%nat /\
    wait_connect w remaining d =
    set_syncBuffer (repeat IsConnect (S polls) ++ m_syncBuffer d) d.
Proof.
  revert d. induction remaining as [|n IH]; intros d; simpl.
  - exists O. split; [lia | reflexivity].
  - destruct (is_connect w (m_syncBuffer d)).
    + exists O. split; [lia | reflexivity].
    + destruct (IH (call IsConnect d)) as (k & Hk & E).
      exists (S k). split; [lia|]. rewrite E, set_syncBuffer_call.
      simpl m_syncBuffer. now rewrite repeat_shift.
Qed.

(** [open] without a selected target. *)
Lemma open_unselected f secs d :
  m_selectedTargetIndex d < 0 -> open w f secs d = (false, d).
Proof.
  intros H. unfold open. apply Z.ltb_lt in H. now rewrite H.
Qed.

(** [open] with a selected target: the calls made, and the two ends. *)
Lemma open_selected f secs d :
  0 <= m_selectedTargetIndex d ->
  exists polls, (polls <= 100)%nat /\
    let calls := open_calls f secs d polls in
    open w f secs d =
    if is_connect w calls then
      (true,
       set_totalSamplesSent 0
         (set_isPaused false
            (set_playing true
               (set_syncBuffer (Play :: IsConnect :: calls)
                  (set_format f secs d)))))
    else
      (false, set_syncBuffer (IsConnect :: calls) (set_format f secs d)).
Proof.
  intros H. unfold open.
  destruct (Z.ltb_spec (m_selectedTargetIndex d) 0) as [?|_]; [lia|].
  match goal with
  | |- context [wait_connect w 100 ?x] =>
      destruct (wait_connect_polls 100 x) as (k & Hk & E)
  end.
  exists k. split; [exact Hk|]. cbv zeta. rewrite E. clear E.
  unfold open_calls.
  destruct (isLowBitrate f); simpl;
    match goal with
    | |- context [is_connect w ?l] => destruct (is_connect w l)
    end; reflexivity.
Qed.

End AdapterFacts.

(** ** Target selection *)

(** C6.  For an index that is negative or not below the number of targets
    that discovery reports (zero targets included), [selectTarget], a total
    function, returns false; the adapter is as before but for the [find()]
    made on the SDK, so that the stored index and address are unchanged. *)
Theorem selectTarget_out_of_range (w : World) (index : Z)
  (d : DirettaOutputSimple) :
  index < 0 \/ find_result w (m_syncBuffer d) <= index ->
  selectTarget w index d = (false, call Find d) /\
  m_selectedTargetIndex (snd (selectTarget w index d))
  = m_selectedTargetIndex d /\
  m_targetAddress (snd (selectTarget w index d)) = m_targetAddress d.
Proof.
  intros H.
  assert (E : selectTarget w index d = (false, call Find d)).
  { unfold selectTarget.
    destruct (Z.eqb_spec (find_result w (m_syncBuffer d)) 0); [reflexivity|].
    destruct (Z.ltb_spec index 0); [reflexivity|].
    destruct (Z.geb_spec index (find_result w (m_syncBuffer d)));
      [reflexivity | lia]. }
  rewrite E. repeat split.
Qed.

Lemma selectTarget_out_of_range_witness :
  (5 < 0 \/ find_result Sample.online (m_syncBuffer init) <= 5) /\
  (selectTarget Sample.online 5 init = (false, call Find init) /\
   m_selectedTargetIndex (snd (selectTarget Sample.online 5 init))
   = m_selectedTargetIndex init /\
   m_targetAddress (snd (selectTarget Sample.online 5 init))
   = m_targetAddress init).
Proof.
  split.
  - right. simpl. lia.
  - apply (selectTarget_out_of_range Sample.online 5 init).
    right. simpl. lia.
Defined.

(** A successful selection stores a valid index. *)
Lemma selectTarget_index w index d :
  m_selectedTargetIndex (snd (selectTarget w index d))
  = if fst (selectTarget w index d) then index else m_selectedTargetIndex d.
Proof.
  unfold selectTarget.
  destruct (find_result w (m_syncBuffer d) =? 0); [reflexivity|].
  destruct ((index <? 0) || (index >=? find_result w (m_syncBuffer d)));
    reflexivity.
Qed.

Lemma selectTarget_true_index w index d :
  fst (selectTarget w index d) = true -> 0 <= index.
Proof.
  unfold selectTarget.
  destruct (find_result w (m_syncBuffer d) =? 0); [discriminate|].
  destruct (Z.ltb_spec index 0); simpl; [discriminate|]. intros _. lia.
Qed.

(** ** The transfer mode *)

Lemma transfer_modes_app l1 l2 :
  transfer_modes (l1 ++ l2) = transfer_modes l1 ++ transfer_modes l2.
Proof.
  induction l1 as [|c l1 IH]; simpl; [reflexivity|].
  destruct c; simpl; now rewrite ?IH.
Qed.

Lemma transfer_modes_polls n : transfer_modes (repeat IsConnect n) = [].
Proof. induction n; simpl; auto. Qed.

Lemma isLowBitrate_spec f :
  isLowBitrate f = true <->
  bitDepth f <= 16 /\ sampleRate f <= 48000 /\ isDSD f = false.
Proof.
  unfold isLowBitrate. rewrite !andb_true_iff, negb_true_iff.
  rewrite !Z.leb_le. tauto.
Qed.

(** C8.  With a target selected, [open] configures the transfer exactly
    once, and the mode is a function of the format's bit depth, sample rate
    and encoding alone: small packets ([configTransferAuto]) exactly when
    [bitDepth <= 16], [sampleRate <= 48000] and the encoding is PCM, large
    packets ([configTransferVarMax]) otherwise, whatever the other
    arguments, the adapter and the network are. *)
Theorem open_transfer_mode {ids : FormatIDs} (w : World) (f : AudioFormat)
  (secs : Q) (d : DirettaOutputSimple) :
  0 <= m_selectedTargetIndex d ->
  transfer_modes (m_syncBuffer (snd (open w f secs d)))
  = (if (bitDepth f <=? 16) && (sampleRate f <=? 48000) && negb (isDSD f)
     then SmallPackets else LargePackets)
    :: transfer_modes (m_syncBuffer d).
Proof.
  intros H. destruct (open_selected w f secs d H) as (k & _ & E).
  cbv zeta in E. rewrite E. clear E.
  assert (T : transfer_modes (open_calls f secs d k)
              = (if isLowBitrate f then SmallPackets else LargePackets)
                :: transfer_modes (m_syncBuffer d)).
  { unfold open_calls. rewrite !transfer_modes_app, transfer_modes_polls.
    destruct (isLowBitrate f); reflexivity. }
  destruct (is_connect w (open_calls f secs d k)); simpl; exact T.
Qed.

Lemma open_transfer_mode_witness :
  0 <= m_selectedTargetIndex (snd (selectTarget Sample.online 0 init)) /\
  transfer_modes
    (m_syncBuffer
       (snd (@open Sample.ids Sample.online Sample.hires (2 # 1)
               (snd (selectTarget Sample.online 0 init)))))
  = (if (bitDepth Sample.hires <=? 16) && (sampleRate Sample.hires <=? 48000)
        && negb (isDSD Sample.hires)
     then SmallPackets else LargePackets)
    :: transfer_modes (m_syncBuffer (snd (selectTarget Sample.online 0 init))).
Proof.
  split.
  - simpl. lia.
  - apply (@open_transfer_mode Sample.ids Sample.online Sample.hires (2 # 1)
             (snd (selectTarget Sample.online 0 init))).
    simpl. lia.
Defined.

(** ** Pause and resume *)

(** C9, as stated, fails for an adapter that is already paused: there
    [pause] does nothing and [resume] clears the flag.  The state is the one
    reached by selecting a target, opening and pausing. *)
Lemma already_paused_is_resumed :
  let d := snd (@run Sample.ids Sample.online
                  [SelectTarget 0; Open Sample.cd_quality (2 # 1); Pause]
                  [] init) in
  isPlaying d = true /\ isPaused d = true /\
  isPaused (resume (pause d)) <> isPaused d.
Proof. vm_compute. repeat split; discriminate. Qed.

(** C9, amended.  [pause] followed by [resume] leaves the count of samples
    delivered and the playing flag as they were; the paused flag is as it
    was unless the adapter was playing and already paused, where it ends
    cleared.  [pause] on an adapter that is paused or not playing, and
    [resume] on an adapter that is not paused or not playing, change
    nothing. *)
Theorem pause_resume (d : DirettaOutputSimple) :
  m_totalSamplesSent (resume (pause d)) = m_totalSamplesSent d /\
  m_playing (resume (pause d)) = m_playing d /\
  m_isPaused (resume (pause d))
  = (if m_playing d && m_isPaused d then false else m_isPaused d) /\
  (m_playing d = false \/ m_isPaused d = true -> pause d = d) /\
  (m_playing d = false \/ m_isPaused d = false -> resume d = d).
Proof.
  unfold pause, resume.
  destruct d as [sb addr idx fmt secs playing paused tm ct cmt ic mt total].
  destruct playing, paused; simpl; repeat split;
    intros [?|?]; congruence.
Qed.

Lemma pause_resume_witness :
  (m_playing init = false \/ m_isPaused init = true) /\
  (m_playing init = false \/ m_isPaused init = false) /\
  (m_totalSamplesSent (resume (pause init)) = m_totalSamplesSent init /\
   m_playing (resume (pause init)) = m_playing init /\
   m_isPaused (resume (pause init))
   = (if m_playing init && m_isPaused init then false else m_isPaused init) /\
   pause init = init /\ resume init = init).
Proof.
  split; [left; reflexivity|]. split; [left; reflexivity|].
  destruct (pause_resume init) as (H1 & H2 & H3 & H4 & H5).
  split; [exact H1|]. split; [exact H2|]. split; [exact H3|].
  split; [apply H4 | apply H5]; left; reflexivity.
Defined.

(** ** Format changes *)

Lemma changeFormat_unfold {ids : FormatIDs} w f d :
  changeFormat w f d
  = open w f (m_bufferSeconds d)
      (if m_playing d then disconnectFromTarget (call Stop d) else d).
Proof. unfold changeFormat. now destruct (m_playing d). Qed.

(** What [open] does to the fields, by its result. *)
Lemma open_fields {ids : FormatIDs} w f secs d :
  let r := fst (open w f secs d) in
  let d' := snd (open w f secs d) in
  m_selectedTargetIndex d' = m_selectedTargetIndex d /\
  m_targetAddress d' = m_targetAddress d /\
  m_playing d' = (if r then true else m_playing d) /\
  m_isPaused d' = (if r then false else m_isPaused d) /\
  m_totalSamplesSent d' = (if r then 0 else m_totalSamplesSent d) /\
  m_currentFormat d'
  = (if m_selectedTargetIndex d <? 0 then m_currentFormat d else f) /\
  (r = true -> 0 <= m_selectedTargetIndex d).
Proof.
  cbv zeta.
  destruct (Z.ltb_spec (m_selectedTargetIndex d) 0) as [Hlt|Hge].
  - rewrite (open_unselected w f secs d Hlt). simpl.
    repeat split; discriminate.
  - destruct (open_selected w f secs d Hge) as (k & _ & E).
    cbv zeta in E. rewrite E.
    destruct (is_connect w (open_calls f secs d k)); simpl;
      repeat split; trivial.
Qed.




(** ** Invariants of the adapter over its histories *)

Section Histories.

Context {ids : FormatIDs}.
Variable w : World.

Lemma run_invariant (I : History -> DirettaOutputSimple -> Prop) :
  (forall h d op,
     I h d -> I ((op, fst (step w op d)) :: h) (snd (step w op d))) ->
  forall ops h d,
    I h d -> I (fst (run w ops h d)) (snd (run w ops h d)).
Proof.
  intros Hstep ops. induction ops as [|op ops IH]; intros h d Hi; simpl.
  - exact Hi.
  - specialize (Hstep h d op Hi). destruct (step w op d) as [r d'].
    now apply IH.
Qed.

(** [listAvailableTargets] only makes discovery calls. *)
Lemma listAvailableTargets_frame d :
  exists calls,
    listAvailableTargets w d = set_syncBuffer (calls ++ m_syncBuffer d) d /\
    forallb is_discovery calls = true.
Proof.
  unfold listAvailableTargets.
  destruct (find_result w (m_syncBuffer d) =? 0).
  - exists [Find]. split; reflexivity.
  - assert (G : forall l d0, exists calls,
               fold_left (fun d i => call (GetSinkName (Z.of_nat i)) d) l d0
               = set_syncBuffer (calls ++ m_syncBuffer d0) d0 /\
               forallb is_discovery calls = true).
    { induction l as [|i l IH]; intros d0; simpl.
      - exists []. split; [now destruct d0 | reflexivity].
      - destruct (IH (call (GetSinkName (Z.of_nat i)) d0)) as (c & E & F).
        exists (c ++ [GetSinkName (Z.of_nat i)]). split.
        + rewrite E, set_syncBuffer_call. simpl m_syncBuffer.
          now rewrite <- app_assoc.
        + rewrite forallb_app, F. reflexivity. }
    destruct (G (seq 0 (Z.to_nat (find_result w (m_syncBuffer d))))
                (call Find d)) as (c & E & F).
    exists (c ++ [Find]). split.
    + rewrite E, set_syncBuffer_call. simpl m_syncBuffer.
      now rewrite <- app_assoc.
    + rewrite forallb_app, F. reflexivity.
Qed.

Lemma selectTarget_false index d :
  fst (selectTarget w index d) = false ->
  selectTarget w index d = (false, call Find d).
Proof.
  unfold selectTarget.
  destruct (find_result w (m_syncBuffer d) =? 0); [reflexivity|].
  destruct ((index <? 0) || (index >=? find_result w (m_syncBuffer d)));
    [reflexivity | discriminate].
Qed.

Lemma selectTarget_frame index d :
  m_playing (snd (selectTarget w index d)) = m_playing d /\
  m_isPaused (snd (selectTarget w index d)) = m_isPaused d /\
  m_currentFormat (snd (selectTarget w index d)) = m_currentFormat d /\
  m_totalSamplesSent (snd (selectTarget w index d)) = m_totalSamplesSent d.
Proof.
  unfold selectTarget.
  destruct (find_result w (m_syncBuffer d) =? 0); [repeat split|].
  destruct ((index <? 0) || (index >=? find_result w (m_syncBuffer d)));
    repeat split.
Qed.

Lemma sendAudio_not_playing n d :
  m_playing d = false -> sendAudio n d = (false, d).
Proof. intros H. unfold sendAudio. now rewrite H. Qed.

Lemma sendAudio_frame n d :
  m_playing (snd (sendAudio n d)) = m_playing d /\
  m_isPaused (snd (sendAudio n d)) = m_isPaused d /\
  m_currentFormat (snd (sendAudio n d)) = m_currentFormat d /\
  m_selectedTargetIndex (snd (sendAudio n d)) = m_selectedTargetIndex d /\
  fst (sendAudio n d) = m_playing d.
Proof.
  unfold sendAudio. destruct (m_playing d) eqn:P, (m_isPaused d) eqn:Q;
    simpl; auto.
Qed.

Lemma changeFormat_fields f d :
  let r := fst (changeFormat w f d) in
  let d' := snd (changeFormat w f d) in
  m_selectedTargetIndex d' = m_selectedTargetIndex d /\
  m_playing d' = (if r then true else m_playing d) /\
  m_currentFormat d'
  = (if m_selectedTargetIndex d <? 0 then m_currentFormat d else f) /\
  (r = true -> 0 <= m_selectedTargetIndex d).
Proof.
  cbv zeta. rewrite changeFormat_unfold.
  set (d0 := if m_playing d then disconnectFromTarget (call Stop d) else d).
  assert (F : m_playing d0 = m_playing d /\
              m_selectedTargetIndex d0 = m_selectedTargetIndex d /\
              m_currentFormat d0 = m_currentFormat d).
  { unfold d0. destruct (m_playing d) eqn:P; simpl; repeat split; exact P. }
  destruct F as (Fp & Fi & Ff).
  pose proof (open_fields w f (m_bufferSeconds d) d0) as O.
  cbv zeta in O. destruct O as (Oi & _ & Op & _ & _ & Of & Og).
  rewrite Oi, Op, Of, Fp, Fi, Ff. repeat split. now rewrite <- Fi.
Qed.

(** The playing flag says that an [open] has succeeded and that no [close]
    was called since. *)
Lemma playing_step h d op :
  m_playing d = opened_not_closed h ->
  m_playing (snd (step w op d))
  = opened_not_closed ((op, fst (step w op d)) :: h).
Proof.
  intros H. destruct op; simpl; trivial.
  - destruct (listAvailableTargets_frame d) as (c & -> & _). exact H.
  - destruct (selectTarget_frame index d) as (-> & _). exact H.
  - pose proof (open_fields w format bufferSeconds d) as O.
    cbv zeta in O. destruct O as (_ & _ & -> & _).
    now destruct (fst (open w format bufferSeconds d)).
  - destruct (sendAudio_frame numSamples d) as (-> & _). exact H.
  - pose proof (changeFormat_fields newFormat d) as O.
    cbv zeta in O. destruct O as (_ & -> & _).
    now destruct (fst (changeFormat w newFormat d)).
  - unfold pause. now destruct (negb (m_playing d) || m_isPaused d).
  - unfold resume.
    now destruct (negb (m_playing d) || negb (m_isPaused d)).
  - unfold close. destruct (m_playing d) eqn:P; simpl; congruence.
Qed.

Lemma playing_history ops :
  m_playing (snd (run w ops [] init))
  = opened_not_closed (fst (run w ops [] init)).
Proof.
  apply (run_invariant (fun h d => m_playing d = opened_not_closed h)).
  - intros h d op. apply playing_step.
  - reflexivity.
Qed.

End Histories.

(** ** Before any target is selected *)

Section NoTarget.

Context {ids : FormatIDs}.
Variable w : World.

Lemma untouched_step h d op :
  (selected_once h = false -> untouched d) ->
  selected_once ((op, fst (step w op d)) :: h) = false ->
  untouched (snd (step w op d)).
Proof.
  intros IH Hs.
  assert (Hh : selected_once h = false).
  { unfold selected_once in *. simpl in Hs.
    now apply orb_false_iff in Hs as [_ Hs]. }
  specialize (IH Hh). destruct IH as (Ui & Ua & Up & Uq & Uf & Ut & Uc).
  destruct op; simpl; try (repeat split; assumption).
  - destruct (listAvailableTargets_frame w d) as (c & -> & F).
    repeat split; trivial. simpl. now rewrite forallb_app, F, Uc.
  - destruct (fst (selectTarget w index d)) eqn:R.
    + unfold selected_once in Hs. simpl in Hs. rewrite R in Hs.
      discriminate.
    + rewrite (selectTarget_false w index d R). simpl.
      repeat split; assumption.
  - rewrite open_unselected by lia. repeat split; assumption.
  - rewrite sendAudio_not_playing by assumption. repeat split; assumption.
  - rewrite changeFormat_unfold, Up, open_unselected by lia.
    repeat split; assumption.
  - unfold pause. rewrite Up. repeat split; assumption.
  - unfold resume. rewrite Up. repeat split; assumption.
  - unfold close. rewrite Up. repeat split; assumption.
Qed.

Lemma untouched_history ops :
  selected_once (fst (run w ops [] init)) = false ->
  untouched (snd (run w ops [] init)).
Proof.
  apply (run_invariant w
           (fun h d => selected_once h = false -> untouched d)).
  - intros h d op. apply untouched_step.
  - intros _. repeat split.
Qed.

End NoTarget.

(** C10.  As long as no [selectTarget] has returned true since the
    construction, whatever else was called, [open] returns false and leaves
    the adapter as it is (so no call is made on the SDK); the adapter is not
    playing, not paused, has no format and no target, and the only calls
    ever made on the SDK are discovery calls. *)
Theorem open_without_target {ids : FormatIDs} (w : World) (ops : list Op)
  (format : AudioFormat) (bufferSeconds : Q) :
  let h := fst (run w ops [] init) in
  let d := snd (run w ops [] init) in
  selected_once h = false ->
  open w format bufferSeconds d = (false, d) /\
  isPlaying d = false /\ isPaused d = false /\
  m_selectedTargetIndex d = -1 /\
  getCurrentFormat d = zero_format /\
  forallb is_discovery (m_syncBuffer d) = true.
Proof.
  cbv zeta. intros H.
  destruct (untouched_history w ops H) as (Ui & Ua & Up & Uq & Uf & Ut & Uc).
  split; [apply open_unselected; lia|]. repeat split; assumption.
Qed.

Lemma open_without_target_witness :
  let ops := [SetMTU 9000; ListAvailableTargets; SelectTarget 7;
              Open Sample.hires (1 # 1); SendAudio 64;
              ChangeFormat Sample.dsd64; Pause; Resume; Close] in
  let h := fst (@run Sample.ids Sample.online ops [] init) in
  let d := snd (@run Sample.ids Sample.online ops [] init) in
  selected_once h = false /\
  (@open Sample.ids Sample.online Sample.cd_quality (2 # 1) d = (false, d) /\
   isPlaying d = false /\ isPaused d = false /\
   m_selectedTargetIndex d = -1 /\
   getCurrentFormat d = zero_format /\
   forallb is_discovery (m_syncBuffer d) = true).
Proof.
  cbv zeta. split.
  - vm_compute. reflexivity.
  - apply (@open_without_target Sample.ids Sample.online
             [SetMTU 9000; ListAvailableTargets; SelectTarget 7;
              Open Sample.hires (1 # 1); SendAudio 64;
              ChangeFormat Sample.dsd64; Pause; Resume; Close]
             Sample.cd_quality (2 # 1)).
    vm_compute. reflexivity.
Defined.

(** ** The size of a stream *)

Lemma dataSize_stream_bytes f n : dataSize f n = stream_bytes f n.
Proof.
  unfold dataSize, stream_bytes. destruct (isDSD f); [reflexivity|].
  rewrite size_t_mul_idemp_r. f_equal. ring.
Qed.

Lemma stream_bytes_exact f n :
  isDSD f = false ->
  0 <= n * channels f * (bitDepth f / 8) < Int.size_t_max ->
  stream_bytes f n = n * channels f * (bitDepth f / 8).
Proof.
  intros P H. unfold stream_bytes. rewrite P. now apply size_t_small.
Qed.

Section CurrentFormat.

Context {ids : FormatIDs}.
Variable w : World.

(** While the adapter is playing, a target is selected and the current
    format is the one most recently passed to [open]. *)
Lemma current_format_step h d op :
  (m_playing d = true ->
   0 <= m_selectedTargetIndex d /\ last_opened h = Some (m_currentFormat d)) ->
  m_playing (snd (step w op d)) = true ->
  0 <= m_selectedTargetIndex (snd (step w op d)) /\
  last_opened ((op, fst (step w op d)) :: h)
  = Some (m_currentFormat (snd (step w op d))).
Proof.
  intros IH. destruct op; simpl; try exact IH.
  - destruct (listAvailableTargets_frame w d) as (c & -> & _). exact IH.
  - destruct (selectTarget_frame w index d) as (-> & _ & -> & _).
    intros P. destruct (IH P) as [Hi Hf]. split; [|exact Hf].
    rewrite selectTarget_index.
    destruct (fst (selectTarget w index d)) eqn:R; [|exact Hi].
    now apply (selectTarget_true_index w index d).
  - pose proof (open_fields w format bufferSeconds d) as O.
    cbv zeta in O. destruct O as (-> & _ & -> & _ & _ & -> & Og).
    intros P.
    assert (Hi : 0 <= m_selectedTargetIndex d).
    { destruct (fst (open w format bufferSeconds d)); [now apply Og|].
      now apply IH. }
    split; [exact Hi|].
    destruct (Z.ltb_spec (m_selectedTargetIndex d) 0); [lia | reflexivity].
  - destruct (sendAudio_frame numSamples d) as (-> & _ & -> & -> & _).
    exact IH.
  - pose proof (changeFormat_fields w newFormat d) as O.
    cbv zeta in O. destruct O as (-> & -> & -> & Og).
    intros P.
    assert (Hi : 0 <= m_selectedTargetIndex d).
    { destruct (fst (changeFormat w newFormat d)); [now apply Og|].
      now apply IH. }
    split; [exact Hi|].
    destruct (Z.ltb_spec (m_selectedTargetIndex d) 0); [lia | reflexivity].
  - unfold pause. destruct (negb (m_playing d) || m_isPaused d); exact IH.
  - unfold resume.
    destruct (negb (m_playing d) || negb (m_isPaused d)); exact IH.
  - unfold close. destruct (m_playing d) eqn:P; simpl; [discriminate|].
    congruence.
Qed.

Lemma current_format_history ops :
  m_playing (snd (run w ops [] init)) = true ->
  last_opened (fst (run w ops [] init))
  = Some (m_currentFormat (snd (run w ops [] init))).
Proof.
  intros P.
  apply (run_invariant w
           (fun h d => m_playing d = true ->
                       0 <= m_selectedTargetIndex d /\
                       last_opened h = Some (m_currentFormat d)));
    [|discriminate|exact P].
  intros h d op. apply current_format_step.
Qed.

End CurrentFormat.

(** What the loop of [main] hands over for a read of 800 frames of 6 bytes:
    1600 samples, for which [sendAudio] copies 9600 bytes, twice the 4800
    bytes that were read. *)
Example main_stream_size :
  let p := mkProcess true 4242 [mkRead true 4800; mkRead true 0] in
  let d := snd (fst (@main Sample.ids Sample.online Sample.config p)) in
  sent_samples (snd (@main Sample.ids Sample.online Sample.config p))
  = [1600] /\
  filter (fun c => match c with SetStream _ => true | _ => false end)
         (m_syncBuffer d) = [SetStream 9600].
Proof. vm_compute. split; reflexivity. Qed.

(** ** The loop of the bridge *)

Section Loop.

(** A playing adapter accepts every chunk, so that the loop goes through
    the reads that bring data while the flag is set. *)
Lemma pump_prefix bpf chans pre rest :
  bpf <> 0 ->
  Forall (fun r => running r = true /\ 0 < bytes_read r) pre ->
  forall d log,
    m_playing d = true ->
    exists d' log',
      pump bpf chans (pre ++ rest) d log = pump bpf chans rest d' log' /\
      m_playing d' = true /\
      (forall m, In (Say m) log' -> In (Say m) log).
Proof.
  intros Hb Hpre. induction Hpre as [|r pre [Hr Hn] _ IH]; intros d log P.
  - exists d, log. simpl. repeat split; trivial.
  - simpl. rewrite Hr. simpl.
    destruct (Z.leb_spec (bytes_read r) 0) as [?|_]; [lia|].
    destruct (Z.eqb_spec bpf 0) as [?|_]; [contradiction|].
    fold (samples_of_read bpf chans r).
    destruct (sendAudio_frame (samples_of_read bpf chans r) d)
      as (Fp & _ & _ & _ & Fr).
    destruct (sendAudio (samples_of_read bpf chans r) d) as [ok d1].
    simpl in Fp, Fr. rewrite P in Fp, Fr. subst ok. simpl.
    destruct (IH d1 (CallSendAudio (samples_of_read bpf chans r) :: log) Fp)
      as (d' & log' & E & P' & L).
    exists d', log'. repeat split; trivial.
    intros m Hm. destruct (L m Hm) as [?|?]; [discriminate | assumption].
Qed.

End Loop.

(** ** The end of the decoder's stream *)

Lemma uint8_range x : 0 <= Int.uint8 x < 256.
Proof. unfold Int.uint8. apply Z.mod_pos_bound. lia. Qed.

Lemma bytes_per_frame_nonzero sf :
  8 <= Int.uint8 sf -> Int.size_t (Int.uint8 sf / 8 * 2) <> 0.
Proof.
  intros H. pose proof (uint8_range sf) as R.
  assert (1 <= Int.uint8 sf / 8 < 32).
  { split.
    - apply Z.div_le_lower_bound; lia.
    - apply Z.div_lt_upper_bound; lia. }
  rewrite size_t_small; [lia|]. unfold Int.size_t_max. lia.
Qed.

(** C2, as stated, fails: the decoder's stream ends after one chunk, while
    the flag is set and no signal was received, and [main] returns 0, having
    printed the line of a closed decoder. *)
Lemma child_exit_returns_zero :
  let p := mkProcess true 4242 [mkRead true 4800; mkRead true 0] in
  let r := @main Sample.ids Sample.online Sample.config p in
  In (Say SqueezeliteClosed) (snd r) /\
  ~ (exists code, code <> 0 /\ fst (fst r) = Exit code).
Proof.
  vm_compute. split.
  - auto 10.
  - intros (code & Hne & E). injection E as E. now apply Hne.
Qed.

(** C2, amended.  When the decoder's stream ends (a [read] returns 0) while
    the bridge is in its loop with the flag set, the bridge prints that the
    decoder closed, leaves the loop without another read, closes the
    adapter, closes the pipe, signals and reaps the child, and returns 0:
    the end of the stream is not told apart from an orderly end, and
    nothing more is printed than the lines of a normal shutdown. *)
Theorem child_exit_shutdown {ids : FormatIDs} (w : World) (cfg : Config)
  (p : Process) (pre rest : list ReadStep) :
  let s := selectTarget w (Int.int32 (diretta_target cfg - 1))
             (configure cfg) in
  let o := open w (assumed_format cfg) (buffer_seconds cfg) (snd s) in
  list_targets cfg = false -> fst s = true ->
  pipe_ok p = true -> 0 < fork_pid p -> fst o = true ->
  8 <= Int.uint8 (sample_format cfg) ->
  reads p = pre ++ mkRead true 0 :: rest ->
  Forall (fun r => running r = true /\ 0 < bytes_read r) pre ->
  exists d log,
    main w cfg p
    = (Exit 0, d,
       Say Stopped :: WaitChild :: KillChild :: ClosePipe
         :: Say ShuttingDown :: Say SqueezeliteClosed :: log) /\
    isPlaying d = false /\
    (forall m, In (Say m) log -> m = Streaming \/ m = SqueezeliteStarted).
Proof.
  cbv zeta. intros Hlist Hsel Hpipe Hpid Hopen Hfmt Hreads Hpre.
  unfold main. rewrite Hlist.
  destruct (selectTarget w (Int.int32 (diretta_target cfg - 1))
              (configure cfg)) as [sel d1].
  simpl in Hsel, Hopen. subst sel. simpl. rewrite Hpipe. simpl.
  destruct (Z.eqb_spec (fork_pid p) (-1)) as [?|_]; [lia|].
  destruct (Z.eqb_spec (fork_pid p) 0) as [?|_]; [lia|].
  pose proof (open_fields w (assumed_format cfg) (buffer_seconds cfg) d1)
    as O.
  cbv zeta in O. destruct O as (_ & _ & Op & _).
  destruct (open w (assumed_format cfg) (buffer_seconds cfg) d1)
    as [opened d2].
  simpl in Hopen, Op. subst opened. simpl.
  rewrite Hreads.
  destruct (pump_prefix
              (Int.size_t (Int.uint8 (sample_format cfg) / 8 * 2)) 2
              pre (mkRead true 0 :: rest)
              (bytes_per_frame_nonzero _ Hfmt) Hpre d2
              [Say Streaming; Say SqueezeliteStarted] Op)
    as (d3 & log3 & E & P3 & L).
  rewrite E. simpl. unfold cleanup, close. rewrite P3. simpl.
  destruct (Z.gtb_spec (fork_pid p) 0) as [_|?]; [|lia].
  eexists _, log3. split; [reflexivity|]. split; [reflexivity|].
  intros m Hm. destruct (L m Hm) as [[= <-]|[[= <-]|[]]]; auto.
Qed.

Lemma child_exit_shutdown_witness :
  let cfg := Sample.config in
  let p := mkProcess true 4242 [mkRead true 4800; mkRead true 0] in
  let s := selectTarget Sample.online (Int.int32 (diretta_target cfg - 1))
             (configure cfg) in
  let o := @open Sample.ids Sample.online (assumed_format cfg)
             (buffer_seconds cfg) (snd s) in
  (list_targets cfg = false /\ fst s = true /\
   pipe_ok p = true /\ 0 < fork_pid p /\ fst o = true /\
   8 <= Int.uint8 (sample_format cfg) /\
   reads p = [mkRead true 4800] ++ mkRead true 0 :: [] /\
   Forall (fun r => running r = true /\ 0 < bytes_read r)
          [mkRead true 4800]) /\
  exists d log,
    @main Sample.ids Sample.online cfg p
    = (Exit 0, d,
       Say Stopped :: WaitChild :: KillChild :: ClosePipe
         :: Say ShuttingDown :: Say SqueezeliteClosed :: log) /\
    isPlaying d = false /\
    (forall m, In (Say m) log -> m = Streaming \/ m = SqueezeliteStarted).
Proof.
  cbv zeta.
  assert (G : Forall (fun r => running r = true /\ 0 < bytes_read r)
                     [mkRead true 4800]).
  { constructor; [split; reflexivity | constructor]. }
  split.
  - repeat split; try reflexivity; try exact G. vm_compute. discriminate.
  - apply (@child_exit_shutdown Sample.ids Sample.online Sample.config
             (mkProcess true 4242 [mkRead true 4800; mkRead true 0])
             [mkRead true 4800] []); try reflexivity; try exact G.
    vm_compute. discriminate.
Defined.

(** A playing adapter refuses no chunk. *)
Lemma pump_no_failure bpf chans script :
  forall d log,
    m_playing d = true -> ~ In (Say FailedSend) log ->
    ~ In (Say FailedSend) (snd (pump bpf chans script d log)).
Proof.
  induction script as [|r script IH]; intros d log P Hlog; simpl.
  - exact Hlog.
  - destruct (running r); simpl; [|exact Hlog].
    destruct (bytes_read r <=? 0).
    { destruct (bytes_read r =? 0); simpl; intros [?|?];
        discriminate || contradiction. }
    destruct (bpf =? 0); [exact Hlog|].
    fold (samples_of_read bpf chans r).
    destruct (sendAudio_frame (samples_of_read bpf chans r) d)
      as (Fp & _ & _ & _ & Fr).
    destruct (sendAudio (samples_of_read bpf chans r) d) as [ok d1].
    simpl in Fp, Fr. rewrite P in Fp, Fr. subst ok. simpl.
    apply IH; [exact Fp|]. intros [?|?]; discriminate || contradiction.
Qed.

(** In [main] the adapter is playing when the loop starts and stays so:
    no chunk is refused, and the line of a failed send is never printed. *)
Lemma main_send_never_fails {ids : FormatIDs} (w : World) (cfg : Config)
  (p : Process) :
  ~ In (Say FailedSend) (snd (main w cfg p)).
Proof.
  unfold main.
  destruct (list_targets cfg); [simpl; tauto|].
  destruct (selectTarget w _ _) as [sel d1].
  destruct sel; simpl; [|intros [?|[]]; discriminate].
  destruct (pipe_ok p); simpl; [|intros [?|[]]; discriminate].
  destruct (fork_pid p =? -1); [simpl; intros [?|[]]; discriminate|].
  destruct (fork_pid p =? 0); [simpl; tauto|].
  pose proof (open_fields w (assumed_format cfg) (buffer_seconds cfg) d1)
    as O.
  cbv zeta in O. destruct O as (_ & _ & Op & _).
  destruct (open w (assumed_format cfg) (buffer_seconds cfg) d1)
    as [opened d2].
  simpl in Op. destruct opened; simpl.
  2:{ intros [?|[?|[?|[]]]]; discriminate. }
  match goal with
  | |- context [pump ?b ?c ?sc ?d ?l] =>
      assert (N : ~ In (Say FailedSend) (snd (pump b c sc d l)));
      [apply pump_no_failure;
       [exact Op | intros [?|[?|[]]]; discriminate]|];
      destruct (pump b c sc d l) as [[e d3] log3]
  end.
  simpl in N. destruct e; simpl; try exact N.
  destruct (fork_pid p >? 0); simpl;
    intros H; repeat (destruct H as [H|H]; [discriminate|]); contradiction.
Qed.

(** The in-process backend, by contrast, logs a warning for a refused
    chunk, marks its frames as written and goes on. *)
Lemma output_thread_turn_refused (current_format : AudioFormat) (frames : Z)
  (d : DirettaOutputSimple) :
  m_playing d = false ->
  output_thread_turn current_format frames d
  = (true, d, if frames >? 8192 then 8192 else frames).
Proof.
  intros P. unfold output_thread_turn.
  now rewrite sendAudio_not_playing.
Qed.

(** * Further properties of the adapter *)

(** ** Closing *)

(** [close] tears the connection down once: on a playing adapter it stops,
    disconnects and closes the SDK and clears both flags; on any other
    adapter it does nothing, so that a second [close] is a no-op. *)
Theorem close_idempotent (d : DirettaOutputSimple) :
  close (close d) = close d /\
  isPlaying (close d) = false /\
  isPaused (close d) = isPaused d && negb (isPlaying d) /\
  m_syncBuffer (close d)
  = (if isPlaying d then [SyncClose; Disconnect; Stop] else [])
    ++ m_syncBuffer d /\
  m_totalSamplesSent (close d) = m_totalSamplesSent d /\
  getCurrentFormat (close d) = getCurrentFormat d.
Proof.
  unfold close, isPlaying, isPaused, getCurrentFormat.
  destruct d as [sb addr idx fmt secs playing paused tm ct cmt ic mt total].
  destruct playing, paused; simpl; repeat split.
Qed.

(** ** Selecting a target *)

Lemma selectTarget_spec (w : World) (index : Z)
  (d : DirettaOutputSimple) :
  let count := find_result w (m_syncBuffer d) in
  let r := selectTarget w index d in
  (fst r = true <-> 0 <= index < count) /\
  (fst r = true ->
   m_selectedTargetIndex (snd r) = index /\
   m_targetAddress (snd r)
   = sink_address w (GetSinkName index :: Find :: m_syncBuffer d) index /\
   m_syncBuffer (snd r)
   = GetSinkAddr index :: GetSinkName index :: Find :: m_syncBuffer d) /\
  isPlaying (snd r) = isPlaying d /\ isPaused (snd r) = isPaused d /\
  getCurrentFormat (snd r) = getCurrentFormat d.
Proof.
  cbv zeta. unfold selectTarget, isPlaying, isPaused, getCurrentFormat.
  destruct (Z.eqb_spec (find_result w (m_syncBuffer d)) 0) as [E|E].
  - simpl. repeat split; try discriminate. intros H. lia.
  - destruct (Z.ltb_spec index 0) as [L|L]; simpl.
    + repeat split; try discriminate. intros H. lia.
    + destruct (Z.geb_spec index (find_result w (m_syncBuffer d)))
        as [G|G]; simpl.
      * repeat split; try discriminate. intros H. lia.
      * repeat split; lia.
Qed.

(** [selectTarget] succeeds exactly for an index of a discovered target,
    and then stores that index and the address that the SDK gives for it;
    the flags, the format and the counter are never touched. *)
Theorem selectTarget_in_range (w : World) (index : Z)
  (d : DirettaOutputSimple) :
  let count := find_result w (m_syncBuffer d) in
  let r := selectTarget w index d in
  (fst r = true <-> 0 <= index < count) /\
  (fst r = true ->
   m_selectedTargetIndex (snd r) = index /\
   m_targetAddress (snd r)
   = sink_address w (GetSinkName index :: Find :: m_syncBuffer d) index /\
   m_syncBuffer (snd r)
   = GetSinkAddr index :: GetSinkName index :: Find :: m_syncBuffer d) /\
  isPlaying (snd r) = isPlaying d /\ isPaused (snd r) = isPaused d /\
  getCurrentFormat (snd r) = getCurrentFormat d.
Proof. exact (selectTarget_spec w index d). Qed.

Lemma selectTarget_in_range_witness :
  let r := selectTarget Sample.online 1 init in
  fst r = true /\
  (0 <= 1 < find_result Sample.online (m_syncBuffer init)) /\
  m_selectedTargetIndex (snd r) = 1 /\
  m_targetAddress (snd r) = "192.168.1.21"%string.
Proof.
  cbv zeta.
  destruct (selectTarget_in_range Sample.online 1 init)
    as ([H1 H2] & H3 & _).
  assert (R : 0 <= 1 < find_result Sample.online (m_syncBuffer init)).
  { simpl. lia. }
  split; [exact (H2 R)|]. split; [exact R|].
  destruct (H3 (H2 R)) as (Hi & Ha & _). split; [exact Hi|].
  rewrite Ha. reflexivity.
Defined.
(** ** Listing the targets *)

Lemma list_loop_calls l :
  forall d,
    fold_left (fun d i => call (GetSinkName (Z.of_nat i)) d) l d
    = set_syncBuffer
        (rev (map (fun i => GetSinkName (Z.of_nat i)) l) ++ m_syncBuffer d) d.
Proof.
  induction l as [|i l IH]; intros d; simpl.
  - now destruct d.
  - rewrite IH, set_syncBuffer_call. simpl m_syncBuffer.
    now rewrite <- app_assoc.
Qed.

(** [listAvailableTargets] asks the SDK for the targets once and then for
    the name of each of them, from index 0 to [count - 1] in this order, and
    for nothing else; the adapter is otherwise unchanged (no target gets
    selected).  With no target, or with a negative count, only the
    discovery is made. *)
Theorem listAvailableTargets_calls (w : World) (d : DirettaOutputSimple) :
  let count := find_result w (m_syncBuffer d) in
  listAvailableTargets w d
  = set_syncBuffer
      (rev (map (fun i => GetSinkName (Z.of_nat i)) (seq 0 (Z.to_nat count)))
       ++ Find :: m_syncBuffer d) d.
Proof.
  cbv zeta. unfold listAvailableTargets.
  destruct (Z.eqb_spec (find_result w (m_syncBuffer d)) 0) as [E|E].
  - rewrite E. reflexivity.
  - rewrite list_loop_calls, set_syncBuffer_call. reflexivity.
Qed.

(** ** Opening *)

Lemma polls_app l1 l2 : polls (l1 ++ l2) = (polls l1 + polls l2)%nat.
Proof. unfold polls. now rewrite filter_app, length_app. Qed.

Lemma polls_repeat n : polls (repeat IsConnect n) = n.
Proof.
  unfold polls. induction n as [|n IH]; simpl; [reflexivity|].
  now rewrite IH.
Qed.

Lemma polls_open_calls {ids : FormatIDs} f secs d k :
  polls (open_calls f secs d k) = (S k + polls (m_syncBuffer d))%nat.
Proof.
  unfold open_calls. rewrite !polls_app, polls_repeat.
  destruct (isLowBitrate f); reflexivity.
Qed.

(** The wait loop gives up exactly when the connection stays down. *)
Lemma wait_connect_down (w : World) :
  (forall calls, is_connect w calls = false) ->
  forall remaining d,
    wait_connect w remaining d
    = set_syncBuffer (repeat IsConnect (S remaining) ++ m_syncBuffer d) d.
Proof.
  intros Hdown. induction remaining as [|n IH]; intros d; simpl.
  - reflexivity.
  - rewrite Hdown, IH, set_syncBuffer_call. simpl m_syncBuffer.
    now rewrite repeat_shift.
Qed.

(** The calls of [open] with a selected target, and its result. *)
Lemma open_log {ids : FormatIDs} (w : World) f secs d :
  0 <= m_selectedTargetIndex d ->
  exists k, (k <= 100)%nat /\
    fst (open w f secs d) = is_connect w (open_calls f secs d k) /\
    m_syncBuffer (snd (open w f secs d))
    = (if fst (open w f secs d) then [Play] else [])
      ++ IsConnect :: open_calls f secs d k.
Proof.
  intros H. destruct (open_selected w f secs d H) as (k & Hk & E).
  cbv zeta in E. exists k. split; [exact Hk|]. rewrite E.
  destruct (is_connect w (open_calls f secs d k)); split; reflexivity.
Qed.

Lemma plays_open_calls {ids : FormatIDs} f secs d k :
  List.length (filter is_play (open_calls f secs d k))
  = List.length (filter is_play (m_syncBuffer d)).
Proof.
  unfold open_calls. rewrite !filter_app, !length_app.
  assert (R : forall n, filter is_play (repeat IsConnect n) = []).
  { induction n; simpl; auto. }
  rewrite R. destruct (isLowBitrate f); reflexivity.
Qed.

Lemma open_down {ids : FormatIDs} (w : World) :
  (forall calls, is_connect w calls = false) ->
  forall f secs d,
    0 <= m_selectedTargetIndex d ->
    open w f secs d
    = (false,
       set_syncBuffer (IsConnect :: open_calls f secs d 100)
         (set_format f secs d)).
Proof.
  intros Hdown f secs d H. unfold open.
  destruct (Z.ltb_spec (m_selectedTargetIndex d) 0) as [?|_]; [lia|].
  rewrite (wait_connect_down w Hdown), Hdown. unfold open_calls.
  destruct (isLowBitrate f); reflexivity.
Qed.

(** The wait of [open] is bounded: whatever the network does, [open] tests
    [is_connect()] at least twice and at most 102 times (100 sleeps of
    100 ms), and calls [play()] exactly when it returns true.  When the
    connection never comes up it makes all 102 tests and returns false; the
    flags and the counter are not changed by a failed [open]. *)
Theorem open_bounded_wait {ids : FormatIDs} (w : World) (f : AudioFormat)
  (secs : Q) (d : DirettaOutputSimple) :
  0 <= m_selectedTargetIndex d ->
  let r := open w f secs d in
  (polls (m_syncBuffer d) + 2 <= polls (m_syncBuffer (snd r))
   <= polls (m_syncBuffer d) + 102)%nat /\
  List.length (filter is_play (m_syncBuffer (snd r)))
  = ((if fst r then 1 else 0)
     + List.length (filter is_play (m_syncBuffer d)))%nat /\
  (fst r = false ->
   isPlaying (snd r) = isPlaying d /\ isPaused (snd r) = isPaused d /\
   m_totalSamplesSent (snd r) = m_totalSamplesSent d) /\
  ((forall calls, is_connect w calls = false) ->
   fst r = false /\
   polls (m_syncBuffer (snd r)) = (polls (m_syncBuffer d) + 102)%nat).
Proof.
  intros H. cbv zeta.
  destruct (open_log w f secs d H) as (k & Hk & _ & L).
  split; [|split; [|split]].
  - rewrite L, polls_app. change (IsConnect :: open_calls f secs d k)
      with ([IsConnect] ++ open_calls f secs d k).
    rewrite polls_app, polls_open_calls.
    destruct (fst (open w f secs d)); unfold polls; simpl; lia.
  - rewrite L. change (IsConnect :: open_calls f secs d k)
      with ([IsConnect] ++ open_calls f secs d k).
    rewrite !filter_app, !length_app, plays_open_calls.
    destruct (fst (open w f secs d)); reflexivity.
  - intros F. pose proof (open_fields w f secs d) as O. cbv zeta in O.
    rewrite F in O. destruct O as (_ & _ & Op & Oq & Ot & _).
    unfold isPlaying, isPaused. now rewrite Op, Oq, Ot.
  - intros Hdown. rewrite (open_down w Hdown f secs d H).
    split; [reflexivity|]. simpl snd.
    change (m_syncBuffer
              (set_syncBuffer (IsConnect :: open_calls f secs d 100)
                 (set_format f secs d)))
      with ([IsConnect] ++ open_calls f secs d 100).
    rewrite polls_app, polls_open_calls. unfold polls. simpl. lia.
Qed.

Lemma open_bounded_wait_witness :
  let d := snd (selectTarget Sample.online 0 init) in
  let r := @open Sample.ids Sample.online Sample.hires (2 # 1) d in
  let r' := @open Sample.ids Sample.down Sample.hires (2 # 1) d in
  0 <= m_selectedTargetIndex d /\
  (forall calls, is_connect Sample.down calls = false) /\
  ((polls (m_syncBuffer d) + 2 <= polls (m_syncBuffer (snd r))
    <= polls (m_syncBuffer d) + 102)%nat /\
   List.length (filter is_play (m_syncBuffer (snd r)))
   = ((if fst r then 1 else 0)
      + List.length (filter is_play (m_syncBuffer d)))%nat) /\
  (fst r' = false /\
   polls (m_syncBuffer (snd r')) = (polls (m_syncBuffer d) + 102)%nat /\
   isPlaying (snd r') = isPlaying d /\ isPaused (snd r') = isPaused d /\
   m_totalSamplesSent (snd r') = m_totalSamplesSent d).
Proof.
  cbv zeta.
  assert (H : 0 <= m_selectedTargetIndex
                     (snd (selectTarget Sample.online 0 init))).
  { simpl. lia. }
  assert (D : forall calls, is_connect Sample.down calls = false).
  { intros calls. reflexivity. }
  split; [exact H|]. split; [exact D|]. split.
  - destruct (@open_bounded_wait Sample.ids Sample.online Sample.hires
                (2 # 1) (snd (selectTarget Sample.online 0 init)) H)
      as (H1 & H2 & _).
    split; [exact H1 | exact H2].
  - destruct (@open_bounded_wait Sample.ids Sample.down Sample.hires
                (2 # 1) (snd (selectTarget Sample.online 0 init)) H)
      as (_ & _ & H3 & H4).
    destruct (H4 D) as [F P]. split; [exact F|]. split; [exact P|].
    exact (H3 F).
Defined.

(** [open] does not look at the identifier that [buildFormatID] returns:
    with a target selected, a format that the mapping does not support is
    negotiated like any other, [FMT_INVALID] is handed to
    [setSinkConfigure], and [open] returns true as soon as the target
    reports the connection. *)
Theorem open_unsupported_format {ids : FormatIDs} (w : World)
  (f : AudioFormat) (secs : Q) (d : DirettaOutputSimple) :
  0 <= m_selectedTargetIndex d -> supported f = false ->
  In (SetSinkConfigure FMT_INVALID) (m_syncBuffer (snd (open w f secs d))) /\
  getCurrentFormat (snd (open w f secs d)) = f /\
  ((forall calls, is_connect w calls = true) ->
   fst (open w f secs d) = true /\ isPlaying (snd (open w f secs d)) = true).
Proof.
  intros H U.
  destruct (open_log w f secs d H) as (k & _ & R & L).
  pose proof (open_fields w f secs d) as O. cbv zeta in O.
  destruct O as (_ & _ & Op & _ & _ & Of & _).
  split; [|split].
  - rewrite L. apply in_or_app. right. right. unfold open_calls.
    apply in_or_app. right. apply in_or_app. left.
    rewrite (unsupported_invalid f U). simpl. auto 10.
  - unfold getCurrentFormat. rewrite Of.
    destruct (Z.ltb_spec (m_selectedTargetIndex d) 0); [lia | reflexivity].
  - intros Hup. unfold isPlaying. rewrite Op, R, Hup. split; reflexivity.
Qed.

Lemma open_unsupported_format_witness :
  let d := snd (selectTarget Sample.online 0 init) in
  let f := mkFormat 44100 20 2 false in
  0 <= m_selectedTargetIndex d /\ supported f = false /\
  (forall calls, is_connect Sample.online calls = true) /\
  In (SetSinkConfigure (@FMT_INVALID Sample.ids))
     (m_syncBuffer (snd (@open Sample.ids Sample.online f (2 # 1) d))) /\
  fst (@open Sample.ids Sample.online f (2 # 1) d) = true /\
  isPlaying (snd (@open Sample.ids Sample.online f (2 # 1) d)) = true.
Proof.
  cbv zeta.
  assert (H : 0 <= m_selectedTargetIndex
                     (snd (selectTarget Sample.online 0 init))).
  { simpl. lia. }
  assert (U : forall calls, is_connect Sample.online calls = true).
  { intros calls. reflexivity. }
  split; [exact H|]. split; [reflexivity|]. split; [exact U|].
  destruct (@open_unsupported_format Sample.ids Sample.online
              (mkFormat 44100 20 2 false) (2 # 1)
              (snd (selectTarget Sample.online 0 init)) H eq_refl)
    as (H1 & _ & H3).
  split; [exact H1 | exact (H3 U)].
Defined.

(** ** Changing the format *)

(** A successful [changeFormat] always ends in the same state, whatever the
    adapter was doing: playing with the new format, not paused (a paused
    adapter comes back running), the counter at zero and the buffer length
    in seconds kept; an adapter that was playing has stopped, disconnected
    and closed the SDK before it opens it again, and one that was not has
    made no such call. *)
Theorem changeFormat_success {ids : FormatIDs} (w : World)
  (newFormat : AudioFormat) (d : DirettaOutputSimple) :
  fst (changeFormat w newFormat d) = true ->
  let d' := snd (changeFormat w newFormat d) in
  isPlaying d' = true /\ isPaused d' = false /\
  getCurrentFormat d' = newFormat /\ m_totalSamplesSent d' = 0 /\
  m_bufferSeconds d' = m_bufferSeconds d /\
  exists k, (k <= 100)%nat /\
    m_syncBuffer d'
    = Play :: IsConnect
        :: open_calls newFormat (m_bufferSeconds d)
             (if isPlaying d
              then set_syncBuffer
                     (SyncClose :: Disconnect :: Stop :: m_syncBuffer d) d
              else d) k.
Proof.
  rewrite changeFormat_unfold. intros R. cbv zeta.
  set (d0 := if m_playing d then disconnectFromTarget (call Stop d) else d)
    in *.
  pose proof (open_fields w newFormat (m_bufferSeconds d) d0) as O.
  cbv zeta in O. rewrite R in O.
  destruct O as (_ & _ & Op & Oq & Ot & Of & Og).
  specialize (Og eq_refl).
  destruct (open_selected w newFormat (m_bufferSeconds d) d0 Og)
    as (k & Hk & E).
  cbv zeta in E.
  unfold isPlaying, isPaused, getCurrentFormat.
  rewrite Op, Oq, Ot, Of.
  destruct (Z.ltb_spec (m_selectedTargetIndex d0) 0) as [?|_]; [lia|].
  repeat split.
  - rewrite E in R |- *.
    destruct (is_connect w (open_calls newFormat (m_bufferSeconds d) d0 k));
      [reflexivity | discriminate].
  - exists k. split; [exact Hk|]. rewrite E in R |- *.
    destruct (is_connect w (open_calls newFormat (m_bufferSeconds d) d0 k));
      [|discriminate].
    simpl. unfold d0. destruct (m_playing d); reflexivity.
Qed.

Lemma changeFormat_success_witness :
  let d := pause (snd (@run Sample.ids Sample.online
                         [SelectTarget 0; Open Sample.cd_quality (2 # 1)]
                         [] init)) in
  let d' := snd (@changeFormat Sample.ids Sample.online Sample.hires d) in
  fst (@changeFormat Sample.ids Sample.online Sample.hires d) = true /\
  isPaused d = true /\
  isPlaying d' = true /\ isPaused d' = false /\
  getCurrentFormat d' = Sample.hires /\ m_totalSamplesSent d' = 0.
Proof.
  cbv zeta.
  assert (R : fst (@changeFormat Sample.ids Sample.online Sample.hires
                     (pause (snd (@run Sample.ids Sample.online
                                    [SelectTarget 0;
                                     Open Sample.cd_quality (2 # 1)]
                                    [] init)))) = true).
  { vm_compute. reflexivity. }
  split; [exact R|]. split; [vm_compute; reflexivity|].
  destruct (@changeFormat_success Sample.ids Sample.online Sample.hires
              _ R) as (H1 & H2 & H3 & H4 & _).
  repeat split; assumption.
Defined.


(** ** The counter of delivered samples *)

Section Counter.

Context {ids : FormatIDs}.
Variable w : World.

Lemma changeFormat_flags f d :
  let r := fst (changeFormat w f d) in
  let d' := snd (changeFormat w f d) in
  m_isPaused d' = (if r then false else m_isPaused d) /\
  m_totalSamplesSent d' = (if r then 0 else m_totalSamplesSent d).
Proof.
  cbv zeta. rewrite changeFormat_unfold.
  set (d0 := if m_playing d then disconnectFromTarget (call Stop d) else d).
  assert (F : m_isPaused d0 = m_isPaused d /\
              m_totalSamplesSent d0 = m_totalSamplesSent d).
  { unfold d0. destruct (m_playing d); split; reflexivity. }
  destruct F as (Fq & Ft).
  pose proof (open_fields w f (m_bufferSeconds d) d0) as O.
  cbv zeta in O. destruct O as (_ & _ & _ & Oq & Ot & _).
  now rewrite Oq, Ot, Fq, Ft.
Qed.

Lemma counted_step h d op :
  counted h d ->
  counted ((op, fst (step w op d)) :: h) (snd (step w op d)).
Proof.
  intros (Ip & Iq & It & Ic). unfold counted.
  pose proof (playing_step w h d op Ip) as P. split; [exact P|]. clear P.
  assert (Imp : m_playing d = false -> m_isPaused d = true -> False).
  { intros Hp Hq. rewrite (Ic Hp) in Hq. discriminate. }
  destruct op; simpl in *; try (repeat split; assumption).
  - destruct (listAvailableTargets_frame w d) as (c & -> & _).
    repeat split; assumption.
  - destruct (selectTarget_frame w index d) as (-> & -> & _ & ->).
    repeat split; assumption.
  - pose proof (open_fields w format bufferSeconds d) as O.
    cbv zeta in O. destruct O as (_ & _ & -> & -> & -> & _).
    destruct (fst (open w format bufferSeconds d));
      repeat split; try assumption; intros; congruence.
  - unfold sendAudio. rewrite <- Ip, <- Iq, <- It.
    destruct (m_playing d) eqn:Ep, (m_isPaused d) eqn:Eq; simpl;
      repeat split; auto; intros; try congruence;
      exfalso; now apply Imp.
  - pose proof (changeFormat_fields w newFormat d) as O.
    cbv zeta in O. destruct O as (_ & -> & _).
    pose proof (changeFormat_flags newFormat d) as O2.
    cbv zeta in O2. destruct O2 as (-> & ->).
    destruct (fst (changeFormat w newFormat d));
      repeat split; try assumption; intros; congruence.
  - unfold pause. rewrite <- Ip.
    destruct (m_playing d) eqn:Ep, (m_isPaused d) eqn:Eq; simpl;
      repeat split; auto; intros; try congruence;
      exfalso; now apply Imp.
  - unfold resume.
    destruct (m_playing d) eqn:Ep, (m_isPaused d) eqn:Eq; simpl;
      repeat split; auto; intros; try congruence;
      exfalso; now apply Imp.
  - unfold close.
    destruct (m_playing d) eqn:Ep, (m_isPaused d) eqn:Eq; simpl;
      repeat split; auto; intros; try congruence;
      exfalso; now apply Imp.
Qed.

Lemma counted_history ops :
  counted (fst (run w ops [] init)) (snd (run w ops [] init)).
Proof.
  apply (run_invariant w counted).
  - intros h d op. apply counted_step.
  - repeat split.
Qed.

End Counter.

(** In every state that the adapter reaches from its construction, the
    counter of delivered samples holds the samples of the calls of
    [sendAudio] made since the last successful [open] while the adapter was
    open and not paused (modulo 2^64); chunks handed over while paused or
    closed are not counted, and [close] keeps the count.  The paused flag
    is set exactly when a [pause] was made on the open adapter with no
    [resume], [close] or successful [open] since, so that a paused adapter
    is always a playing one. *)
Theorem delivered_samples {ids : FormatIDs} (w : World) (ops : list Op) :
  let h := fst (run w ops [] init) in
  let d := snd (run w ops [] init) in
  m_totalSamplesSent d = delivered h /\
  isPaused d = paused_by_history h /\
  isPaused d && negb (isPlaying d) = false.
Proof.
  cbv zeta. destruct (counted_history w ops) as (_ & Iq & It & Ic).
  unfold isPaused, isPlaying. repeat split; try assumption.
  destruct (m_playing (snd (run w ops [] init))).
  - apply andb_false_r.
  - now rewrite Ic.
Qed.

Example delivered_samples_run :
  let ops := [SelectTarget 0; SendAudio 7; Open Sample.cd_quality (2 # 1);
              SendAudio 100; Pause; SendAudio 50; Resume; SendAudio 20;
              Close; SendAudio 9] in
  m_totalSamplesSent (snd (@run Sample.ids Sample.online ops [] init)) = 120
  /\ stream_sizes
       (m_syncBuffer (snd (@run Sample.ids Sample.online ops [] init)))
     = [80; 400].
Proof. vm_compute. split; reflexivity. Qed.

(** * Further properties of the bridge *)

(** ** The exit code *)

Lemma configure_fresh cfg :
  m_syncBuffer (configure cfg) = [] /\ m_playing (configure cfg) = false /\
  m_isPaused (configure cfg) = false /\
  m_selectedTargetIndex (configure cfg) = -1.
Proof. unfold configure. destruct (mtu cfg >? 0); repeat split. Qed.

Lemma close_not_playing d : m_playing d = false -> close d = d.
Proof. intros H. unfold close. now rewrite H. Qed.

(** The loop keeps a playing, running adapter as it is, format included. *)
Lemma pump_keeps bpf chans script :
  forall d log,
    m_playing d = true ->
    let d' := snd (fst (pump bpf chans script d log)) in
    m_playing d' = true /\ m_isPaused d' = m_isPaused d /\
    m_currentFormat d' = m_currentFormat d.
Proof.
  induction script as [|r script IH]; intros d log P; simpl.
  - repeat split; assumption.
  - destruct (running r); simpl; [|repeat split; assumption].
    destruct (bytes_read r <=? 0).
    { destruct (bytes_read r =? 0); simpl; repeat split; assumption. }
    destruct (bpf =? 0); [simpl; repeat split; assumption|].
    fold (samples_of_read bpf chans r).
    destruct (sendAudio_frame (samples_of_read bpf chans r) d)
      as (Fp & Fq & Ff & _ & Fr).
    destruct (sendAudio (samples_of_read bpf chans r) d) as [ok d1].
    simpl in Fp, Fq, Ff, Fr. rewrite P in Fp, Fr. subst ok. simpl.
    specialize (IH d1 (CallSendAudio (samples_of_read bpf chans r) :: log)
                  Fp).
    cbv zeta in IH. rewrite <- Fq, <- Ff. exact IH.
Qed.

(** [main] returns 1 exactly for a failure before the loop (no target, no
    pipe, no child, no connection) and 0 in every other case in which it
    returns: after listing the targets, and after the loop however it was
    left (end of the stream, read error, signal). *)
Theorem main_exit_code {ids : FormatIDs} (w : World) (cfg : Config)
  (p : Process) :
  let s := selectTarget w (Int.int32 (diretta_target cfg - 1))
             (configure cfg) in
  let o := open w (assumed_format cfg) (buffer_seconds cfg) (snd s) in
  let failed := negb (list_targets cfg)
                && (negb (fst s) || negb (pipe_ok p) || (fork_pid p =? -1)
                    || (negb (fork_pid p =? 0) && negb (fst o))) in
  match fst (fst (main w cfg p)) with
  | Exit code => code = if failed then 1 else 0
  | ChildProcess => failed = false /\ fork_pid p = 0
  | Crash | Reading => failed = false /\ fst o = true
  end.
Proof.
  cbv zeta. unfold main.
  destruct (list_targets cfg); [reflexivity|].
  destruct (selectTarget w (Int.int32 (diretta_target cfg - 1))
              (configure cfg)) as [sel d1].
  destruct sel; simpl; [|reflexivity].
  destruct (pipe_ok p); simpl; [|reflexivity].
  destruct (Z.eqb_spec (fork_pid p) (-1)) as [E1|E1]; [reflexivity|].
  destruct (Z.eqb_spec (fork_pid p) 0) as [E0|E0]; simpl.
  { split; [reflexivity | exact E0]. }
  destruct (open w (assumed_format cfg) (buffer_seconds cfg) d1)
    as [opened d2].
  destruct opened; simpl; [|reflexivity].
  match goal with
  | |- context [pump ?b ?c ?sc ?d ?l] =>
      destruct (pump b c sc d l) as [[e d3] log3]
  end.
  destruct e; simpl; auto.
Qed.

(** ** The cleanup *)

(** Whenever [main] returns, the adapter is neither playing nor paused.
    When it returns after the loop, the connection that [open] made has
    been stopped, disconnected and closed as the last calls on the SDK, the
    pipe is closed, and the child has been signalled and reaped, in this
    order. *)
Theorem main_cleanup {ids : FormatIDs} (w : World) (cfg : Config)
  (p : Process) (code : Z) :
  fst (fst (main w cfg p)) = Exit code ->
  let d := snd (fst (main w cfg p)) in
  isPlaying d = false /\ isPaused d = false /\
  (code = 0 -> list_targets cfg = false -> 0 < fork_pid p ->
   (exists log,
      snd (main w cfg p)
      = Say Stopped :: WaitChild :: KillChild :: ClosePipe
          :: Say ShuttingDown :: log) /\
   exists calls,
     m_syncBuffer d = SyncClose :: Disconnect :: Stop :: calls).
Proof.
  cbv zeta. unfold main, isPlaying, isPaused.
  destruct (configure_fresh cfg) as (_ & Cp & Cq & _).
  destruct (list_targets cfg).
  { intros _.
    destruct (listAvailableTargets_frame w (configure cfg)) as (c & E & _).
    simpl. rewrite E. unfold close. simpl. rewrite Cp. simpl.
    split; [assumption|]. split; [assumption|].
    intros _ Hl _. discriminate Hl. }
  destruct (selectTarget_frame w (Int.int32 (diretta_target cfg - 1))
              (configure cfg)) as (Sp & Sq & _).
  destruct (selectTarget w (Int.int32 (diretta_target cfg - 1))
              (configure cfg)) as [sel d1].
  simpl in Sp, Sq. rewrite Cp in Sp. rewrite Cq in Sq.
  assert (Early : forall o l,
            fst (fst (o, close d1, l)) = Exit code ->
            o = Exit 1 ->
            m_playing (snd (fst (o, close d1, l))) = false /\
            m_isPaused (snd (fst (o, close d1, l))) = false /\
            (code = 0 -> false = false -> 0 < fork_pid p ->
             (exists log, snd (o, close d1, l)
                = Say Stopped :: WaitChild :: KillChild :: ClosePipe
                    :: Say ShuttingDown :: log) /\
             exists calls,
               m_syncBuffer (snd (fst (o, close d1, l)))
               = SyncClose :: Disconnect :: Stop :: calls)).
  { intros o l H ->. simpl in *. injection H as <-.
    rewrite (close_not_playing d1 Sp).
    split; [assumption|]. split; [assumption|].
    intros Hc _ _. discriminate Hc. }
  destruct sel; simpl; [|intros H; now apply (Early _ _ H)].
  destruct (pipe_ok p); simpl; [|intros H; now apply (Early _ _ H)].
  destruct (Z.eqb_spec (fork_pid p) (-1)) as [E1|E1];
    [intros H; now apply (Early _ _ H)|].
  destruct (Z.eqb_spec (fork_pid p) 0) as [E0|E0]; [discriminate|].
  clear Early.
  pose proof (open_fields w (assumed_format cfg) (buffer_seconds cfg) d1)
    as O.
  cbv zeta in O. destruct O as (_ & _ & Op & Oq & _).
  destruct (open w (assumed_format cfg) (buffer_seconds cfg) d1)
    as [opened d2].
  simpl in Op, Oq. destruct opened; simpl.
  2:{ intros H. injection H as <-. rewrite Sp in Op. rewrite Sq in Oq.
      rewrite (close_not_playing d2 Op).
      split; [assumption|]. split; [assumption|].
      intros Hc _ _. discriminate Hc. }
  match goal with
  | |- context [pump ?b ?c ?sc ?d ?l] =>
      pose proof (pump_keeps b c sc d l Op) as K;
      destruct (pump b c sc d l) as [[e d3] log3]
  end.
  cbv zeta in K. simpl in K. destruct K as (Kp & _).
  destruct e; simpl; try discriminate.
  intros _. unfold close. rewrite Kp. simpl.
  split; [reflexivity|]. split; [reflexivity|]. intros _ _ Hpid.
  destruct (Z.gtb_spec (fork_pid p) 0) as [_|?]; [|lia].
  split; eexists; reflexivity.
Qed.

Lemma main_cleanup_witness :
  let p := mkProcess true 4242 [mkRead true 4800; mkRead false 0] in
  let r := @main Sample.ids Sample.online Sample.config p in
  fst (fst r) = Exit 0 /\ list_targets Sample.config = false /\
  0 < fork_pid p /\
  isPlaying (snd (fst r)) = false /\ isPaused (snd (fst r)) = false /\
  (exists log,
     snd r = Say Stopped :: WaitChild :: KillChild :: ClosePipe
               :: Say ShuttingDown :: log) /\
  exists calls,
    m_syncBuffer (snd (fst r)) = SyncClose :: Disconnect :: Stop :: calls.
Proof.
  cbv zeta.
  assert (E : fst (fst (@main Sample.ids Sample.online Sample.config
                          (mkProcess true 4242
                             [mkRead true 4800; mkRead false 0])))
              = Exit 0).
  { vm_compute. reflexivity. }
  split; [exact E|]. split; [reflexivity|]. split; [reflexivity|].
  destruct (@main_cleanup Sample.ids Sample.online Sample.config
              (mkProcess true 4242 [mkRead true 4800; mkRead false 0])
              0 E) as (H1 & H2 & H3).
  split; [exact H1|]. split; [exact H2|].
  apply H3; reflexivity.
Defined.

(** ** The target number *)

Lemma int32_pred t :
  0 <= t < 2 ^ 32 ->
  Int.int32 (t - 1) = if (1 <=? t) && (t <=? 2 ^ 31) then t - 1
                      else if t =? 0 then -1 else t - 1 - 2 ^ 32.
Proof.
  unfold Int.int32, Int.uint32.
  change (2 ^ 32) with 4294967296. change (2 ^ 31) with 2147483648.
  intros H. destruct (Z.eqb_spec t 0) as [->|N].
  - reflexivity.
  - rewrite Z.mod_small by lia.
    destruct (Z.leb_spec 1 t); [|lia]. simpl.
    destruct (Z.leb_spec t 2147483648), (Z.ltb_spec (t - 1) 2147483648);
      simpl; lia.
Qed.

(** What the loop prints. *)
Lemma pump_says bpf chans script m :
  forall d log,
    In (Say m) (snd (pump bpf chans script d log)) ->
    In (Say m) log \/ m = SqueezeliteClosed \/ m = ReadError
    \/ m = FailedSend.
Proof.
  induction script as [|r script IH]; intros d log; simpl.
  - auto.
  - destruct (running r); simpl; [|auto].
    destruct (bytes_read r <=? 0).
    { destruct (bytes_read r =? 0); simpl; intros [[= <-]|H]; auto. }
    destruct (bpf =? 0); [simpl; auto|].
    destruct (sendAudio _ d) as [ok d1]. destruct ok; simpl.
    + intros H. apply IH in H. destruct H as [[E|H]|H]; auto.
      discriminate E.
    + intros [[= <-]|[E|H]]; auto. discriminate E.
Qed.

(** The target number of the command line is 1-based: [main] reports a
    failed selection exactly when the number is not one of
    [1 .. count], the count being what discovery finds; number 0 is
    refused whatever is found. *)
Theorem main_target_number {ids : FormatIDs} (w : World) (cfg : Config)
  (p : Process) :
  list_targets cfg = false ->
  0 <= diretta_target cfg < 2 ^ 32 -> find_result w [] < 2 ^ 31 ->
  (In (Say FailedSelectTarget) (snd (main w cfg p)) <->
   ~ (1 <= diretta_target cfg <= find_result w [])) /\
  (~ (1 <= diretta_target cfg <= find_result w []) ->
   main w cfg p
   = (Exit 1, call Find (configure cfg), [Say FailedSelectTarget])).
Proof.
  intros Hl Ht Hc.
  destruct (configure_fresh cfg) as (Cs & Cp & _).
  pose proof (selectTarget_spec w (Int.int32 (diretta_target cfg - 1))
                (configure cfg)) as S.
  cbv zeta in S. rewrite Cs in S. destruct S as (Siff & _).
  assert (R : fst (selectTarget w (Int.int32 (diretta_target cfg - 1))
                     (configure cfg)) = true
              <-> 1 <= diretta_target cfg <= find_result w []).
  { pose proof (int32_pred _ Ht) as P.
    change (2 ^ 32) with 4294967296 in *.
    change (2 ^ 31) with 2147483648 in *.
    destruct (Z.leb_spec 1 (diretta_target cfg)),
             (Z.leb_spec (diretta_target cfg) 2147483648);
      simpl in P;
      try destruct (Z.eqb_spec (diretta_target cfg) 0);
      split; intros X; try (apply Siff in X); try (apply Siff); lia. }
  clear Siff.
  pose proof (selectTarget_false w (Int.int32 (diretta_target cfg - 1))
                (configure cfg)) as F.
  unfold main. rewrite Hl.
  destruct (selectTarget w (Int.int32 (diretta_target cfg - 1))
              (configure cfg)) as [sel d1].
  simpl in R, F. destruct sel; simpl.
  - assert (Y : 1 <= diretta_target cfg <= find_result w []).
    { now apply R. }
    split; [|intros N; contradiction]. split; [|intros N; contradiction].
    intros H. exfalso. revert H.
    destruct (pipe_ok p); simpl; [|intros [E|[]]; discriminate E].
    destruct (fork_pid p =? -1); [simpl; intros [E|[]]; discriminate E|].
    destruct (fork_pid p =? 0); [simpl; tauto|].
    destruct (open w (assumed_format cfg) (buffer_seconds cfg) d1)
      as [opened d2].
    destruct opened; simpl.
    2:{ intros [E|[E|[E|[]]]]; discriminate E. }
    match goal with
    | |- context [pump ?b ?c ?sc ?d ?l] =>
        pose proof (pump_says b c sc FailedSelectTarget d l) as K;
        destruct (pump b c sc d l) as [[e d3] log3]
    end.
    simpl in K.
    assert (K' : ~ In (Say FailedSelectTarget) log3).
    { intros H. destruct (K H) as [[E|[E|[]]]|[E|[E|E]]]; discriminate E. }
    destruct e; simpl; try exact K'.
    destruct (fork_pid p >? 0); simpl; intros H;
      repeat (destruct H as [E|H]; [discriminate E|]); contradiction.
  - assert (N : ~ (1 <= diretta_target cfg <= find_result w [])).
    { intros Y. apply R in Y. discriminate Y. }
    specialize (F eq_refl). injection F as ->.
    rewrite close_not_playing by exact Cp.
    split; [|reflexivity]. split; [intros _; exact N | intros _; now left].
Qed.

Lemma main_target_number_witness :
  let cfg := mkConfig 24 0 (2 # 1) 1 10000 333 5000 0 false in
  let p := mkProcess true 4242 [] in
  list_targets cfg = false /\ 0 <= diretta_target cfg < 2 ^ 32 /\
  find_result Sample.online [] < 2 ^ 31 /\
  ~ (1 <= diretta_target cfg <= find_result Sample.online []) /\
  @main Sample.ids Sample.online cfg p
  = (Exit 1, call Find (configure cfg), [Say FailedSelectTarget]).
Proof.
  cbv zeta. split; [reflexivity|]. split; [simpl; lia|].
  split; [simpl; lia|].
  assert (N : ~ (1 <= diretta_target
                        (mkConfig 24 0 (2 # 1) 1 10000 333 5000 0 false)
                 <= find_result Sample.online [])).
  { simpl. lia. }
  split; [exact N|].
  destruct (@main_target_number Sample.ids Sample.online
              (mkConfig 24 0 (2 # 1) 1 10000 333 5000 0 false)
              (mkProcess true 4242 []) eq_refl) as (_ & H).
  - simpl. lia.
  - simpl. lia.
  - exact (H N).
Defined.

(** ** The bytes copied by the loop *)

Lemma stream_sizes_app l1 l2 :
  stream_sizes (l1 ++ l2) = stream_sizes l1 ++ stream_sizes l2.
Proof.
  induction l1 as [|c l1 IH]; simpl; [reflexivity|].
  destruct c; simpl; now rewrite ?IH.
Qed.

Lemma stream_sizes_polls n : stream_sizes (repeat IsConnect n) = [].
Proof. induction n; simpl; auto. Qed.


Lemma stream_sizes_open {ids : FormatIDs} (w : World) f secs d :
  stream_sizes (m_syncBuffer (snd (open w f secs d)))
  = stream_sizes (m_syncBuffer d).
Proof.
  destruct (Z.ltb_spec (m_selectedTargetIndex d) 0) as [Hlt|Hge].
  - now rewrite open_unselected.
  - destruct (open_log w f secs d Hge) as (k & _ & _ & L). rewrite L.
    rewrite stream_sizes_app. unfold open_calls.
    change (IsConnect :: ?x) with ([IsConnect] ++ x).
    rewrite !stream_sizes_app, stream_sizes_polls.
    destruct (fst (open w f secs d)), (isLowBitrate f); reflexivity.
Qed.

Lemma stream_sizes_select (w : World) index d :
  stream_sizes (m_syncBuffer (snd (selectTarget w index d)))
  = stream_sizes (m_syncBuffer d).
Proof.
  unfold selectTarget.
  destruct (find_result w (m_syncBuffer d) =? 0); [reflexivity|].
  destruct ((index <? 0) || (index >=? find_result w (m_syncBuffer d)));
    reflexivity.
Qed.

Lemma stream_sizes_close d :
  stream_sizes (m_syncBuffer (close d)) = stream_sizes (m_syncBuffer d).
Proof. unfold close. destruct (m_playing d); reflexivity. Qed.







(** * The command line *)

Section CommandLine.

Variable stoi : string -> option Z.
Variable stof : string -> option Q.
Variable to_string : Z -> string.

Lemma set_short_target arg value c c' :
  arg <> "-t"%string ->
  Cli.set_short stoi stof arg value c = Some c' ->
  Cli.diretta_target c' = Cli.diretta_target c.
Proof.
  intros N. unfold Cli.set_short.
  repeat match goal with
         | |- context [String.eqb arg ?s] =>
             destruct (String.eqb_spec arg s) as [?|?]
         end;
    try contradiction;
    try (intros [= <-]; reflexivity).
  - destruct (stoi value); simpl; [intros [= <-]; reflexivity|discriminate].
  - destruct (stof value); simpl; [intros [= <-]; reflexivity|discriminate].
Qed.

Lemma parse_loop_target n :
  forall args c0 c,
    (List.length args <= n)%nat ->
    ~ In "-t"%string args ->
    Cli.parse_loop stoi stof args c0 = Cli.Args c ->
    Cli.diretta_target c = Cli.diretta_target c0.
Proof.
  induction n as [|n IH]; intros args c0 c Hlen Hnot.
  - destruct args; [|simpl in Hlen; lia]. simpl. now intros [= <-].
  - destruct args as [|arg rest]; [simpl; now intros [= <-]|].
    assert (Na : arg <> "-t"%string).
    { intros ->. apply Hnot. now left. }
    assert (Nr : ~ In "-t"%string rest).
    { intros H. apply Hnot. now right. }
    simpl in Hlen. simpl.
    destruct ((arg =? "-h")%string || (arg =? "--help")%string);
      [discriminate|].
    destruct (arg =? "-l")%string.
    { intros H. now rewrite (IH rest _ c ltac:(lia) Nr H). }
    destruct (arg =? "-v")%string.
    { intros H. now rewrite (IH rest _ c ltac:(lia) Nr H). }
    destruct rest as [|value rest']; [now intros [= <-]|].
    assert (Nr' : ~ In "-t"%string rest').
    { intros H. apply Nr. now right. }
    simpl in Hlen.
    destruct (Cli.short_option arg).
    { destruct (Cli.set_short stoi stof arg value c0) as [c1|] eqn:E;
        [|discriminate].
      intros H. rewrite (IH rest' c1 c ltac:(lia) Nr' H).
      exact (set_short_target arg value c0 c1 Na E). }
    repeat match goal with
           | |- context [String.eqb arg ?s] => destruct (String.eqb arg s)
           end;
      try (destruct (stoi value); [|discriminate]);
      intros H;
      try (now rewrite (IH rest' _ c ltac:(lia) Nr' H)).
    now rewrite (IH (value :: rest') _ c ltac:(simpl; lia) Nr H).
Qed.

(** The target number is changed by the option [-t] and by nothing else:
    when no argument after the program name is [-t], a command line that
    [parse_args] accepts leaves the target at 1, whatever else it holds;
    an option that is not known, [--target] for one, is skipped without a
    message. *)
Theorem parse_args_target (argv : list string) (c : Cli.Config) :
  ~ In "-t"%string (tl argv) ->
  Cli.parse_args stoi stof argv = Cli.Args c ->
  Cli.diretta_target c = 1.
Proof.
  intros Hnot H. unfold Cli.parse_args in H.
  exact (parse_loop_target (List.length (tl argv)) (tl argv) Cli.default c
           (Nat.le_refl _) Hnot H).
Qed.

(** The decoder's options survive the trip through the child's command
    line: read back by [parse_args], the arguments that
    [build_squeezelite_args] makes give the sample format, the player and
    model names and, when they are not empty, the server, the MAC address,
    the codecs and the rates of the configuration, and nothing of the
    Diretta options, the verbosity or the decoder's path. *)
Theorem build_then_parse (c : Cli.Config) :
  stoi (to_string (Cli.sample_format c)) = Some (Cli.sample_format c) ->
  Cli.parse_args stoi stof (Cli.build_squeezelite_args to_string c)
  = Cli.Args (Cli.decoder_options c).
Proof.
  intros H. unfold Cli.parse_args, Cli.build_squeezelite_args,
    Cli.decoder_options.
  destruct (String.eqb_spec (Cli.lms_server c) "") as [E1|_],
           (String.eqb_spec (Cli.mac_address c) "") as [E2|_],
           (String.eqb_spec (Cli.codecs c) "") as [E3|_],
           (String.eqb_spec (Cli.rates c) "") as [E4|_];
    simpl; unfold Cli.set_short; simpl; rewrite H; simpl;
    rewrite ?E1, ?E2, ?E3, ?E4; reflexivity.
Qed.

End CommandLine.


Lemma parse_args_target_witness :
  ~ In "-t"%string (tl SampleCli.script_argv) /\
  Cli.parse_args SampleCli.stoi SampleCli.stof SampleCli.script_argv
  = Cli.Args SampleCli.script_config /\
  Cli.diretta_target SampleCli.script_config = 1.
Proof.
  assert (N : ~ In "-t"%string (tl SampleCli.script_argv)).
  { simpl. intros H.
    repeat (destruct H as [H|H]; [discriminate H|]). exact H. }
  assert (P : Cli.parse_args SampleCli.stoi SampleCli.stof
                SampleCli.script_argv
              = Cli.Args SampleCli.script_config).
  { vm_compute. reflexivity. }
  split; [exact N|]. split; [exact P|].
  exact (parse_args_target SampleCli.stoi SampleCli.stof
           SampleCli.script_argv SampleCli.script_config N P).
Defined.

Lemma build_then_parse_witness :
  SampleCli.stoi
    (SampleCli.to_string (Cli.sample_format SampleCli.script_config))
  = Some (Cli.sample_format SampleCli.script_config) /\
  Cli.parse_args SampleCli.stoi SampleCli.stof
    (Cli.build_squeezelite_args SampleCli.to_string SampleCli.script_config)
  = Cli.Args (Cli.decoder_options SampleCli.script_config).
Proof.
  split.
  - vm_compute. reflexivity.
  - apply (build_then_parse SampleCli.stoi SampleCli.stof
             SampleCli.to_string SampleCli.script_config).
    vm_compute. reflexivity.
Defined.

(** * The in-process backend *)

(** A rate change that fails leaves the backend and the adapter in
    disagreement: [output_rate_change_diretta] returns false and keeps its
    own [current_format], from which the output thread goes on computing,
    while the adapter's current format already carries the new rate (and
    its flags are as before); a rate change that succeeds records the new
    format on both sides. *)
Theorem rate_change_formats {ids : FormatIDs} (w : World) (rate : Z)
  (s : Backend.diretta_state) (d : DirettaOutputSimple) :
  Backend.diretta s = Some d -> 0 <= m_selectedTargetIndex d ->
  exists r s' d',
    Backend.output_rate_change_diretta w rate s = Some (r, s') /\
    Backend.diretta s' = Some d' /\
    getCurrentFormat d'
    = mkFormat rate (bitDepth (Backend.current_format s))
        (channels (Backend.current_format s))
        (isDSD (Backend.current_format s)) /\
    Backend.current_format s'
    = (if r then getCurrentFormat d' else Backend.current_format s) /\
    isPlaying d' = (if r then true else isPlaying d) /\
    isPaused d' = (if r then false else isPaused d).
Proof.
  intros Hd Hi. unfold Backend.output_rate_change_diretta. rewrite Hd.
  set (nf := mkFormat rate (bitDepth (Backend.current_format s))
               (channels (Backend.current_format s))
               (isDSD (Backend.current_format s))).
  pose proof (changeFormat_fields w nf d) as F. cbv zeta in F.
  destruct F as (_ & Fp & Ff & _).
  pose proof (changeFormat_flags w nf d) as G. cbv zeta in G.
  destruct G as (Gq & _).
  destruct (Z.ltb_spec (m_selectedTargetIndex d) 0) as [?|_]; [lia|].
  destruct (changeFormat w nf d) as [changed d1].
  simpl in Fp, Ff, Gq. exists changed.
  destruct changed; simpl; eexists _, d1;
    (split; [reflexivity|]); (split; [reflexivity|]);
    unfold getCurrentFormat, isPlaying, isPaused;
    rewrite Ff, Fp, Gq; repeat split.
Qed.


Lemma rate_change_formats_witness :
  Backend.diretta SampleBackend.opened = Some SampleBackend.adapter /\
  0 <= m_selectedTargetIndex SampleBackend.adapter /\
  isPlaying SampleBackend.adapter = true /\
  exists s' d',
    @Backend.output_rate_change_diretta Sample.ids Sample.one_shot 96000
      SampleBackend.opened = Some (false, s') /\
    Backend.diretta s' = Some d' /\
    sampleRate (getCurrentFormat d') = 96000 /\
    sampleRate (Backend.current_format s') = 44100 /\
    isPlaying d' = true.
Proof.
  assert (Hd : Backend.diretta SampleBackend.opened
               = Some SampleBackend.adapter) by reflexivity.
  assert (Hi : 0 <= m_selectedTargetIndex SampleBackend.adapter).
  { vm_compute. discriminate. }
  split; [exact Hd|]. split; [exact Hi|]. split; [reflexivity|].
  destruct (@rate_change_formats Sample.ids Sample.one_shot 96000
              SampleBackend.opened SampleBackend.adapter Hd Hi)
    as (r & s' & d' & E & D & F & C & P & _).
  assert (R : r = false).
  { assert (X : option_map fst
                  (@Backend.output_rate_change_diretta Sample.ids
                     Sample.one_shot 96000 SampleBackend.opened)
                = Some false) by (vm_compute; reflexivity).
    rewrite E in X. simpl in X. now injection X. }
  subst r. exists s', d'. split; [exact E|]. split; [exact D|].
  split; [now rewrite F|]. split; [now rewrite C|]. exact P.
Defined.

(** [output_init_diretta] takes the 1-based target number: it ends the
    process exactly when the number is not one of [1 .. count]; when it
    returns, the adapter it has made has target [number - 1] selected and
    is not playing, and no thread runs. *)
Theorem output_init_target (w : World) (target : Z) (buffer : Q)
  (thread_mode cycle_time cycle_min_time info_cycle mtu : Z) :
  0 <= target < 2 ^ 32 -> find_result w [] < 2 ^ 31 ->
  let r := Backend.output_init_diretta w target buffer thread_mode
             cycle_time cycle_min_time info_cycle mtu in
  (r = None <-> ~ (1 <= target <= find_result w [])) /\
  (forall s, r = Some s ->
     exists d, Backend.diretta s = Some d /\
       m_selectedTargetIndex d = target - 1 /\ isPlaying d = false /\
       Backend.running s = false /\ Backend.thread s = false).
Proof.
  intros Ht Hc. cbv zeta. unfold Backend.output_init_diretta.
  set (d0 := if mtu >? 0
             then setMTU mtu
                    (setInfoCycle info_cycle
                       (setCycleMinTime cycle_min_time
                          (setCycleTime cycle_time
                             (setThredMode thread_mode init))))
             else setInfoCycle info_cycle
                    (setCycleMinTime cycle_min_time
                       (setCycleTime cycle_time
                          (setThredMode thread_mode init)))).
  assert (F : m_syncBuffer d0 = [] /\ m_playing d0 = false).
  { unfold d0. destruct (mtu >? 0); split; reflexivity. }
  destruct F as (Fs & Fp).
  pose proof (selectTarget_spec w (Int.int32 (target - 1)) d0) as S.
  cbv zeta in S. rewrite Fs in S. destruct S as (Siff & Sok & Sp & _).
  assert (R : fst (selectTarget w (Int.int32 (target - 1)) d0) = true
              <-> 1 <= target <= find_result w []).
  { pose proof (int32_pred _ Ht) as P.
    change (2 ^ 32) with 4294967296 in *.
    change (2 ^ 31) with 2147483648 in *.
    destruct (Z.leb_spec 1 target), (Z.leb_spec target 2147483648);
      simpl in P; try destruct (Z.eqb_spec target 0);
      split; intros X; try (apply Siff in X); try (apply Siff); lia. }
  assert (I : fst (selectTarget w (Int.int32 (target - 1)) d0) = true ->
              Int.int32 (target - 1) = target - 1).
  { intros X. apply R in X. rewrite (int32_pred _ Ht).
    change (2 ^ 31) with 2147483648 in *.
    destruct (Z.leb_spec 1 target), (Z.leb_spec target 2147483648);
      simpl; lia. }
  destruct (selectTarget w (Int.int32 (target - 1)) d0) as [sel d1].
  simpl in R, I, Sok, Sp. destruct sel; simpl.
  - split.
    + split; [discriminate|]. intros N. exfalso. apply N. now apply R.
    + intros s [= <-]. exists d1. simpl.
      destruct (Sok eq_refl) as (Hi & _). rewrite Hi, (I eq_refl).
      unfold isPlaying in *. rewrite Sp. repeat split. exact Fp.
  - split.
    + split; [|reflexivity]. intros _ Y. apply R in Y. discriminate Y.
    + intros s H. discriminate H.
Qed.

Lemma output_init_target_witness :
  0 <= 3 < 2 ^ 32 /\ find_result Sample.online [] < 2 ^ 31 /\
  ~ (1 <= 3 <= find_result Sample.online []) /\
  Backend.output_init_diretta Sample.online 3 (2 # 1) 1 10000 333 5000 0
  = None.
Proof.
  assert (T : 0 <= 3 < 2 ^ 32) by (simpl; lia).
  assert (C : find_result Sample.online [] < 2 ^ 31) by (simpl; lia).
  assert (N : ~ (1 <= 3 <= find_result Sample.online [])) by (simpl; lia).
  split; [exact T|]. split; [exact C|]. split; [exact N|].
  destruct (output_init_target Sample.online 3 (2 # 1) 1 10000 333 5000 0
              T C) as ([_ H] & _).
  exact (H N).
Defined.

(** The output thread takes [frames] frames (8192 at most) of 24-bit audio
    in 32-bit containers from the output buffer, [4 * channels] bytes a
    frame, but for these frames [sendAudio] copies
    [3 * channels * channels] bytes a frame from the same pointer: with two
    channels or more, more bytes than the frames hold. *)
Theorem output_thread_copies_more (rate c frames : Z)
  (d : DirettaOutputSimple) :
  let f := mkFormat rate 24 c false in
  let taken := Z.min frames 8192 in
  m_playing d = true -> m_isPaused d = false -> m_currentFormat d = f ->
  2 <= c <= 255 -> 0 < frames ->
  stream_sizes (m_syncBuffer (snd (fst (output_thread_turn f frames d))))
  = 3 * c * c * taken :: stream_sizes (m_syncBuffer d) /\
  Backend.data_size f frames = 4 * c * taken /\
  Backend.data_size f frames < 3 * c * c * taken.
Proof.
  cbv zeta. intros P Q F Hc Hf.
  assert (M : Int.size_t_max = 18446744073709551616) by reflexivity.
  assert (T : (if frames >? 8192 then 8192 else frames)
              = Z.min frames 8192).
  { destruct (Z.gtb_spec frames 8192); lia. }
  assert (B : 0 < Z.min frames 8192 <= 8192) by lia.
  unfold output_thread_turn, Backend.data_size, sendAudio.
  rewrite P, Q, F, T. cbn [negb fst snd isDSD bitDepth channels].
  set (t := Z.min frames 8192) in *.
  split; [|split].
  - cbn [m_syncBuffer set_totalSamplesSent call set_syncBuffer stream_sizes].
    f_equal. unfold dataSize. cbn [isDSD bitDepth channels].
    change (24 / 8) with 3.
    rewrite (size_t_small (t * c)) by nia.
    rewrite (size_t_small (3 * c)) by lia.
    rewrite size_t_small by nia. ring.
  - change (24 <=? 16) with false. cbv iota.
    rewrite (size_t_small (c * 4)) by lia.
    rewrite size_t_small by nia. ring.
  - change (24 <=? 16) with false. cbv iota.
    rewrite (size_t_small (c * 4)) by lia.
    rewrite size_t_small by nia. nia.
Qed.

Lemma output_thread_copies_more_witness :
  let d := SampleBackend.adapter in
  m_playing d = true /\ m_isPaused d = false /\
  m_currentFormat d = mkFormat 44100 24 2 false /\
  2 <= 2 <= 255 /\ 0 < 1024 /\
  stream_sizes
    (m_syncBuffer
       (snd (fst (output_thread_turn (mkFormat 44100 24 2 false) 1024 d))))
  = 3 * 2 * 2 * Z.min 1024 8192 :: stream_sizes (m_syncBuffer d) /\
  Backend.data_size (mkFormat 44100 24 2 false) 1024
  = 4 * 2 * Z.min 1024 8192.
Proof.
  cbv zeta.
  split; [reflexivity|]. split; [reflexivity|]. split; [reflexivity|].
  split; [lia|]. split; [lia|].
  destruct (output_thread_copies_more 44100 2 1024 SampleBackend.adapter
              eq_refl eq_refl eq_refl ltac:(lia) ltac:(lia))
    as (H1 & H2 & _).
  split; [exact H1 | exact H2].
Defined.


(** * What the bridge asks of the SDK *)

Lemma setup_calls_app l1 l2 :
  setup_calls (l1 ++ l2) = setup_calls l1 ++ setup_calls l2.
Proof. apply filter_app. Qed.

Lemma setup_calls_polls n : setup_calls (repeat IsConnect n) = [].
Proof. induction n; simpl; auto. Qed.

Lemma setup_calls_discovery calls :
  forallb is_discovery calls = true -> setup_calls calls = [].
Proof.
  induction calls as [|c calls IH]; simpl; [reflexivity|].
  intros H. apply andb_prop in H as [Hc H].
  destruct c; try discriminate; now apply IH.
Qed.

Lemma setup_calls_select (w : World) index d :
  setup_calls (m_syncBuffer (snd (selectTarget w index d)))
  = setup_calls (m_syncBuffer d).
Proof.
  unfold selectTarget.
  destruct (find_result w (m_syncBuffer d) =? 0); [reflexivity|].
  destruct ((index <? 0) || (index >=? find_result w (m_syncBuffer d)));
    reflexivity.
Qed.

Lemma setup_calls_close d :
  setup_calls (m_syncBuffer (close d)) = setup_calls (m_syncBuffer d).
Proof. unfold close. destruct (m_playing d); reflexivity. Qed.

Lemma setup_calls_sendAudio n d :
  setup_calls (m_syncBuffer (snd (sendAudio n d)))
  = setup_calls (m_syncBuffer d).
Proof.
  unfold sendAudio. destruct (m_playing d), (m_isPaused d); reflexivity.
Qed.

Lemma setup_calls_pump bpf chans script :
  forall d log,
    setup_calls (m_syncBuffer (snd (fst (pump bpf chans script d log))))
    = setup_calls (m_syncBuffer d).
Proof.
  induction script as [|r script IH]; intros d log; simpl.
  - reflexivity.
  - destruct (running r); simpl; [|reflexivity].
    destruct (bytes_read r <=? 0).
    { destruct (bytes_read r =? 0); reflexivity. }
    destruct (bpf =? 0); [reflexivity|].
    pose proof (setup_calls_sendAudio
                  (Int.size_t (Int.size_t (bytes_read r) / bpf * chans)) d)
      as S.
    destruct (sendAudio _ d) as [ok d1]. simpl in S.
    destruct ok; simpl; [now rewrite IH | exact S].
Qed.

Lemma setup_calls_open {ids : FormatIDs} (w : World) f secs d :
  0 <= m_selectedTargetIndex d ->
  setup_calls (m_syncBuffer (snd (open w f secs d)))
  = [if isLowBitrate f
     then ConfigTransferAuto (m_infoCycle d) (m_cycleMinTime d)
            (m_cycleTime d)
     else ConfigTransferVarMax (m_infoCycle d);
     SetSinkConfigure (buildFormatID f);
     SetSink (m_targetAddress d) (if m_mtu d >? 0 then m_mtu d else 16128);
     SyncOpen (m_thredMode d)]
    ++ setup_calls (m_syncBuffer d).
Proof.
  intros H. destruct (open_log w f secs d H) as (k & _ & _ & L).
  rewrite L, setup_calls_app. unfold open_calls.
  change (IsConnect :: ?x) with ([IsConnect] ++ x).
  rewrite !setup_calls_app, setup_calls_polls.
  destruct (fst (open w f secs d)), (isLowBitrate f); reflexivity.
Qed.

Lemma configure_fields cfg :
  m_thredMode (configure cfg) = thread_mode cfg /\
  m_cycleTime (configure cfg) = cycle_time cfg /\
  m_cycleMinTime (configure cfg) = cycle_min_time cfg /\
  m_infoCycle (configure cfg) = info_cycle cfg /\
  m_mtu (configure cfg) = (if mtu cfg >? 0 then mtu cfg else 0).
Proof. unfold configure. destruct (mtu cfg >? 0); repeat split. Qed.

Lemma selectTarget_tuning (w : World) index d :
  let d' := snd (selectTarget w index d) in
  m_thredMode d' = m_thredMode d /\ m_cycleTime d' = m_cycleTime d /\
  m_cycleMinTime d' = m_cycleMinTime d /\ m_infoCycle d' = m_infoCycle d /\
  m_mtu d' = m_mtu d.
Proof.
  cbv zeta. unfold selectTarget.
  destruct (find_result w (m_syncBuffer d) =? 0); [repeat split|].
  destruct ((index <? 0) || (index >=? find_result w (m_syncBuffer d)));
    repeat split.
Qed.

(** * The sample counts of the loop *)

(** The loop hands every read that brings data to [sendAudio], in order,
    with the sample count of that read, and a playing, running adapter
    turns each of them into one stream. *)
Lemma pump_exact bpf chans f script :
  bpf <> 0 ->
  forall d log,
    m_playing d = true -> m_isPaused d = false -> m_currentFormat d = f ->
    sent_samples (snd (pump bpf chans script d log))
    = rev (map (samples_of_read bpf chans) (data_reads script))
      ++ sent_samples log /\
    stream_sizes (m_syncBuffer (snd (fst (pump bpf chans script d log))))
    = rev (map (fun r => dataSize f (samples_of_read bpf chans r))
               (data_reads script))
      ++ stream_sizes (m_syncBuffer d).
Proof.
  intros Hb. induction script as [|r script IH]; intros d log P Q F.
  - split; reflexivity.
  - simpl. destruct (running r); simpl; [|split; reflexivity].
    destruct (Z.leb_spec (bytes_read r) 0) as [Hle|Hpos].
    + assert (E : (0 <? bytes_read r) = false) by (apply Z.ltb_ge; lia).
      rewrite E. destruct (bytes_read r =? 0); split; reflexivity.
    + assert (E : (0 <? bytes_read r) = true) by (apply Z.ltb_lt; lia).
      rewrite E. destruct (Z.eqb_spec bpf 0) as [?|_]; [contradiction|].
      fold (samples_of_read bpf chans r).
      unfold sendAudio. rewrite P, Q. cbn [negb].
      set (d1 := set_totalSamplesSent _ _).
      destruct (IH d1 (CallSendAudio (samples_of_read bpf chans r) :: log))
        as (I1 & I2); try reflexivity.
      { exact P. } { exact Q. } { exact F. }
      cbn [negb]. rewrite I1, I2. subst d1. simpl.
      rewrite F, <- !app_assoc. split; reflexivity.
Qed.

Section LoopOfMain.

Context {ids : FormatIDs}.
Variable w : World.

(** When [main] gets to its loop, the calls of [sendAudio] and the streams
    that reach the SDK are those of the reads that bring data. *)
Lemma main_loop_exact cfg p :
  let s := selectTarget w (Int.int32 (diretta_target cfg - 1))
             (configure cfg) in
  let o := open w (assumed_format cfg) (buffer_seconds cfg) (snd s) in
  let bpf := Int.size_t (Int.uint8 (sample_format cfg) / 8 * 2) in
  list_targets cfg = false -> fst s = true ->
  pipe_ok p = true -> 0 < fork_pid p -> fst o = true ->
  8 <= Int.uint8 (sample_format cfg) ->
  sent_samples (snd (main w cfg p))
  = rev (map (samples_of_read bpf 2) (data_reads (reads p))) /\
  stream_sizes (m_syncBuffer (snd (fst (main w cfg p))))
  = map (dataSize (assumed_format cfg)) (sent_samples (snd (main w cfg p))).
Proof.
  cbv zeta. intros Hlist Hsel Hpipe Hpid Hopen Hfmt.
  unfold main. rewrite Hlist.
  destruct (configure_fresh cfg) as (Cs & _).
  pose proof (stream_sizes_select w (Int.int32 (diretta_target cfg - 1))
                (configure cfg)) as S1.
  rewrite Cs in S1. simpl in S1.
  destruct (selectTarget w (Int.int32 (diretta_target cfg - 1))
              (configure cfg)) as [sel d1].
  simpl in Hsel, Hopen, S1. subst sel. simpl. rewrite Hpipe. simpl.
  destruct (Z.eqb_spec (fork_pid p) (-1)) as [?|_]; [lia|].
  destruct (Z.eqb_spec (fork_pid p) 0) as [?|_]; [lia|].
  pose proof (stream_sizes_open w (assumed_format cfg) (buffer_seconds cfg)
                d1) as S2.
  pose proof (open_fields w (assumed_format cfg) (buffer_seconds cfg) d1)
    as O.
  cbv zeta in O. destruct O as (_ & _ & Op & Oq & _ & Of & Og).
  destruct (open w (assumed_format cfg) (buffer_seconds cfg) d1)
    as [opened d2].
  simpl in Hopen, S2, Op, Oq, Of, Og. subst opened. simpl.
  specialize (Og eq_refl). rewrite S1 in S2.
  destruct (Z.ltb_spec (m_selectedTargetIndex d1) 0) as [?|_]; [lia|].
  destruct (pump_exact
              (Int.size_t (Int.uint8 (sample_format cfg) / 8 * 2)) 2
              (assumed_format cfg) (reads p)
              (bytes_per_frame_nonzero _ Hfmt) d2
              [Say Streaming; Say SqueezeliteStarted] Op Oq Of)
    as (E1 & E2).
  rewrite S2 in E2. simpl in E1. rewrite !app_nil_r in E1, E2.
  destruct (pump (Int.size_t (Int.uint8 (sample_format cfg) / 8 * 2)) 2
              (reads p) d2 [Say Streaming; Say SqueezeliteStarted])
    as [[e d3] log3].
  simpl in E1, E2.
  assert (M : stream_sizes (m_syncBuffer d3)
              = map (dataSize (assumed_format cfg)) (sent_samples log3)).
  { rewrite E1, E2, map_rev, map_map. reflexivity. }
  destruct e; simpl.
  - destruct (Z.gtb_spec (fork_pid p) 0) as [_|?]; [|lia]. simpl.
    rewrite !stream_sizes_close. split; assumption.
  - split; assumption.
  - split; assumption.
Qed.

End LoopOfMain.

(** C4.  In every state that the adapter reaches from its construction and
    in which it is playing and not paused, [sendAudio] submits one stream,
    of [numSamples * channels * (bitDepth / 8)] bytes for PCM and of
    [(numSamples * channels) / 8] bytes for DSD, computed in [size_t] (so
    exactly that product when it fits), with the channels and the bit depth
    of the format most recently passed to [open].  And when [main] gets to
    its loop, the calls of [sendAudio] are exactly those of the reads that
    bring data while the flag is set, one call per read and in their order,
    each with [bytes_read / bytes_per_frame * channels] as its sample
    count, and each of them puts a stream of that size into the SDK. *)
Theorem sendAudio_byte_count {ids : FormatIDs} (w : World) (ops : list Op)
  (numSamples : Z) (cfg : Config) (p : Process) :
  let h := fst (run w ops [] init) in
  let d := snd (run w ops [] init) in
  let s := selectTarget w (Int.int32 (diretta_target cfg - 1))
             (configure cfg) in
  let o := open w (assumed_format cfg) (buffer_seconds cfg) (snd s) in
  let bytes_per_frame :=
    Int.size_t (bitDepth (assumed_format cfg) / 8
                * channels (assumed_format cfg)) in
  (isPlaying d = true -> isPaused d = false ->
   exists f,
     last_opened h = Some f /\
     fst (sendAudio numSamples d) = true /\
     m_syncBuffer (snd (sendAudio numSamples d))
     = SetStream (stream_bytes f numSamples) :: m_syncBuffer d /\
     (isDSD f = false ->
      0 <= numSamples * channels f * (bitDepth f / 8) < Int.size_t_max ->
      stream_bytes f numSamples
      = numSamples * channels f * (bitDepth f / 8))) /\
  (list_targets cfg = false -> fst s = true ->
   pipe_ok p = true -> 0 < fork_pid p -> fst o = true ->
   8 <= Int.uint8 (sample_format cfg) ->
   sent_samples (snd (main w cfg p))
   = rev (map (fun r =>
                 Int.size_t (Int.size_t (bytes_read r) / bytes_per_frame
                             * channels (assumed_format cfg)))
              (data_reads (reads p))) /\
   stream_sizes (m_syncBuffer (snd (fst (main w cfg p))))
   = map (stream_bytes (assumed_format cfg))
         (sent_samples (snd (main w cfg p)))).
Proof.
  cbv zeta. split.
  - unfold isPlaying, isPaused. intros P Q.
    exists (m_currentFormat (snd (run w ops [] init))).
    split; [now apply current_format_history|].
    unfold sendAudio. rewrite P, Q. simpl.
    rewrite dataSize_stream_bytes. repeat split.
    apply stream_bytes_exact.
  - intros Hlist Hsel Hpipe Hpid Hopen Hfmt.
    destruct (main_loop_exact w cfg p Hlist Hsel Hpipe Hpid Hopen Hfmt)
      as (E1 & E2).
    split; [exact E1|]. rewrite E2. apply map_ext.
    intros n. apply dataSize_stream_bytes.
Qed.

Lemma sendAudio_byte_count_witness :
  let ops := [SelectTarget 0; Open Sample.cd_quality (2 # 1)] in
  let cfg := Sample.config in
  let p := mkProcess true 4242
             [mkRead true 4800; mkRead true 49152; mkRead true 0;
              mkRead true 600] in
  let h := fst (@run Sample.ids Sample.online ops [] init) in
  let d := snd (@run Sample.ids Sample.online ops [] init) in
  let s := selectTarget Sample.online (Int.int32 (diretta_target cfg - 1))
             (configure cfg) in
  let o := @open Sample.ids Sample.online (assumed_format cfg)
             (buffer_seconds cfg) (snd s) in
  (isPlaying d = true /\ isPaused d = false /\
   list_targets cfg = false /\ fst s = true /\ pipe_ok p = true /\
   0 < fork_pid p /\ fst o = true /\
   8 <= Int.uint8 (sample_format cfg)) /\
  (exists f,
     last_opened h = Some f /\
     fst (sendAudio 4096 d) = true /\
     m_syncBuffer (snd (sendAudio 4096 d))
     = SetStream (stream_bytes f 4096) :: m_syncBuffer d) /\
  sent_samples (snd (@main Sample.ids Sample.online cfg p)) = [16384; 1600]
  /\ stream_sizes
       (m_syncBuffer (snd (fst (@main Sample.ids Sample.online cfg p))))
     = [98304; 9600].
Proof.
  cbv zeta.
  destruct (@sendAudio_byte_count Sample.ids Sample.online
              [SelectTarget 0; Open Sample.cd_quality (2 # 1)] 4096
              Sample.config
              (mkProcess true 4242
                 [mkRead true 4800; mkRead true 49152; mkRead true 0;
                  mkRead true 600]))
    as (A & B).
  assert (Hp : isPlaying
                 (snd (@run Sample.ids Sample.online
                         [SelectTarget 0; Open Sample.cd_quality (2 # 1)]
                         [] init)) = true) by (vm_compute; reflexivity).
  assert (Hq : isPaused
                 (snd (@run Sample.ids Sample.online
                         [SelectTarget 0; Open Sample.cd_quality (2 # 1)]
                         [] init)) = false) by (vm_compute; reflexivity).
  assert (Hf : 8 <= Int.uint8 (sample_format Sample.config)).
  { vm_compute. discriminate. }
  split.
  { repeat split; try reflexivity; try exact Hp; try exact Hq;
      try exact Hf. }
  split.
  - destruct (A Hp Hq) as (f & H1 & H2 & H3 & _).
    exists f. repeat split; assumption.
  - destruct (B eq_refl eq_refl eq_refl eq_refl eq_refl Hf) as (E1 & E2).
    split.
    + rewrite E1. vm_compute. reflexivity.
    + rewrite E2, E1. vm_compute. reflexivity.
Defined.

(** * Streams after a format change that failed *)

Lemma sdk_playing_polls n calls :
  sdk_playing (repeat IsConnect n ++ calls) = sdk_playing calls.
Proof. induction n as [|n IH]; simpl; auto. Qed.

Lemma sdk_playing_open_calls {ids : FormatIDs} f secs d k :
  sdk_playing (open_calls f secs d k) = sdk_playing (m_syncBuffer d).
Proof.
  unfold open_calls. rewrite sdk_playing_polls.
  destruct (isLowBitrate f); reflexivity.
Qed.

(** After a [changeFormat] that returns false on a playing adapter, the SDK
    has been stopped, disconnected and closed and [play()] was not called
    again, but the adapter still says that it is playing, and [sendAudio]
    goes on handing streams to the SDK. *)
Lemma failed_changeFormat_streams {ids : FormatIDs} (w : World)
  (newFormat : AudioFormat) (numSamples : Z) (d : DirettaOutputSimple) :
  m_playing d = true -> m_isPaused d = false ->
  fst (changeFormat w newFormat d) = false ->
  let d' := snd (changeFormat w newFormat d) in
  isPlaying d' = true /\ sdk_playing (m_syncBuffer d') = false /\
  fst (sendAudio numSamples d') = true /\
  m_syncBuffer (snd (sendAudio numSamples d'))
  = SetStream (dataSize (m_currentFormat d') numSamples) :: m_syncBuffer d'.
Proof.
  intros P Q R. cbv zeta.
  pose proof (changeFormat_fields w newFormat d) as F. cbv zeta in F.
  destruct F as (_ & Fp & _).
  pose proof (changeFormat_flags w newFormat d) as G. cbv zeta in G.
  destruct G as (Gq & _).
  rewrite R in Fp, Gq. rewrite P in Fp. rewrite Q in Gq.
  assert (S : sdk_playing (m_syncBuffer (snd (changeFormat w newFormat d)))
              = false).
  { rewrite changeFormat_unfold in R |- *. rewrite P in R |- *.
    set (d0 := disconnectFromTarget (call Stop d)) in *.
    destruct (Z.ltb_spec (m_selectedTargetIndex d0) 0) as [Hlt|Hge].
    - rewrite (open_unselected w _ _ d0 Hlt). reflexivity.
    - destruct (open_log w newFormat (m_bufferSeconds d) d0 Hge)
        as (k & _ & _ & L).
      rewrite L, R.
      change (sdk_playing (open_calls newFormat (m_bufferSeconds d) d0 k)
              = false).
      rewrite sdk_playing_open_calls. reflexivity. }
  unfold isPlaying. split; [exact Fp|]. split; [exact S|].
  unfold sendAudio. rewrite Fp, Gq. split; reflexivity.
Qed.

(** C7.  The code breaks the invariant.  On a network whose connection
    does not come back after a disconnect: select target 0, open at
    44.1 kHz / 16 bit (true), change the format to 96 kHz / 24 bit (false:
    the connection times out).  The SDK has then been stopped, disconnected
    and closed, [play()] was not called again and [is_connect()] answers
    false; yet the adapter says that it is playing, and [sendAudio] of 4096
    samples returns true and hands a stream of 24576 bytes to the SDK.
    ([close] clears the playing flag after the same teardown; [changeFormat]
    does not.) *)
Theorem sendAudio_after_failed_changeFormat :
  let ops := [SelectTarget 0; Open Sample.cd_quality (2 # 1);
              ChangeFormat Sample.hires] in
  let h := fst (@run Sample.ids Sample.one_shot ops [] init) in
  let d := snd (@run Sample.ids Sample.one_shot ops [] init) in
  map snd h = [false; true; true] /\
  opened_not_closed h = true /\ isPlaying d = true /\ isPaused d = false /\
  filter (fun c => match c with
                   | Play | Stop | Disconnect | SyncClose => true
                   | _ => false
                   end) (m_syncBuffer d)
  = [SyncClose; Disconnect; Stop; Play] /\
  sdk_playing (m_syncBuffer d) = false /\
  is_connect Sample.one_shot (m_syncBuffer d) = false /\
  sendAudio 4096 d
  = (true,
     set_totalSamplesSent 4096
       (set_syncBuffer (SetStream 24576 :: m_syncBuffer d) d)).
Proof. vm_compute. repeat split; reflexivity. Qed.

(** The same through the in-process backend: after a rate change that
    fails, a turn of the output thread logs no warning and its stream goes
    to the SDK. *)
Example output_thread_after_failed_rate_change :
  match @Backend.output_rate_change_diretta Sample.ids Sample.one_shot 96000
          SampleBackend.opened with
  | Some (changed, s) =>
      match Backend.diretta s with
      | Some d =>
          changed = false /\ isPlaying d = true /\
          sdk_playing (m_syncBuffer d) = false /\
          fst (fst (output_thread_turn (Backend.current_format s) 1024 d))
          = false /\
          stream_sizes
            (m_syncBuffer
               (snd (fst (output_thread_turn (Backend.current_format s)
                            1024 d))))
          = [12288]
      | None => False
      end
  | None => False
  end.
Proof. vm_compute. repeat split; reflexivity. Qed.

(** [main] sets the connection up exactly when it gets as far as [open]
    (a target was selected, the pipe was made and the child was forked),
    once, and never changes the format afterwards.  The SDK is then opened
    with the thread mode of the command line, the sink is named with the
    address of the selected target and with the MTU of the command line,
    or 16128 when that is not positive, the format proposed is the
    identifier of 44.1 kHz stereo PCM at the sample format of the command
    line, and the transfer uses small packets exactly when that sample
    format is at most 16 bits; in every other run none of these calls is
    made. *)
Theorem main_setup {ids : FormatIDs} (w : World) (cfg : Config)
  (p : Process) :
  let index := Int.int32 (diretta_target cfg - 1) in
  let s := selectTarget w index (configure cfg) in
  let calls := m_syncBuffer (snd (fst (main w cfg p))) in
  setup_calls calls
  = if negb (list_targets cfg) && fst s && pipe_ok p
       && negb (fork_pid p =? -1) && negb (fork_pid p =? 0)
    then
      [if Int.uint8 (sample_format cfg) <=? 16
       then ConfigTransferAuto (info_cycle cfg) (cycle_min_time cfg)
              (cycle_time cfg)
       else ConfigTransferVarMax (info_cycle cfg);
       SetSinkConfigure (buildFormatID (assumed_format cfg));
       SetSink (sink_address w [GetSinkName index; Find] index)
         (if mtu cfg >? 0 then mtu cfg else 16128);
       SyncOpen (thread_mode cfg)]
    else [].
Proof.
  cbv zeta. unfold main.
  destruct (configure_fresh cfg) as (Cs & _).
  destruct (configure_fields cfg) as (Ct & Cc & Cm & Ci & Cu).
  destruct (list_targets cfg).
  { simpl. rewrite setup_calls_close.
    destruct (listAvailableTargets_frame w (configure cfg)) as (c & -> & D).
    simpl. rewrite Cs, app_nil_r. now apply setup_calls_discovery. }
  pose proof (setup_calls_select w (Int.int32 (diretta_target cfg - 1))
                (configure cfg)) as S1.
  pose proof (selectTarget_tuning w (Int.int32 (diretta_target cfg - 1))
                (configure cfg)) as T1.
  pose proof (selectTarget_spec w (Int.int32 (diretta_target cfg - 1))
                (configure cfg)) as A1.
  cbv zeta in T1, A1. rewrite Cs in S1, A1. simpl in S1.
  destruct T1 as (Tt & Tc & Tm & Ti & Tu).
  destruct A1 as (Aiff & Aok & _).
  destruct (selectTarget w (Int.int32 (diretta_target cfg - 1))
              (configure cfg)) as [sel d1].
  simpl in S1, Tt, Tc, Tm, Ti, Tu, Aiff, Aok.
  destruct sel; simpl; [|now rewrite setup_calls_close].
  destruct (pipe_ok p); simpl; [|now rewrite setup_calls_close].
  destruct (fork_pid p =? -1); simpl; [now rewrite setup_calls_close|].
  destruct (fork_pid p =? 0); simpl; [exact S1|].
  destruct (Aok eq_refl) as (Ai & Aa & _).
  assert (Hi : 0 <= m_selectedTargetIndex d1).
  { rewrite Ai. apply Aiff. reflexivity. }
  pose proof (setup_calls_open w (assumed_format cfg) (buffer_seconds cfg)
                d1 Hi) as S2.
  rewrite S1, app_nil_r, Tt, Tc, Tm, Ti, Tu, Ct, Cc, Cm, Ci, Cu, Aa in S2.
  assert (Elow : isLowBitrate (assumed_format cfg)
                 = (Int.uint8 (sample_format cfg) <=? 16)).
  { unfold isLowBitrate, assumed_format. simpl.
    now rewrite andb_true_r, andb_true_r. }
  assert (Emtu : (if (if mtu cfg >? 0 then mtu cfg else 0) >? 0
                  then if mtu cfg >? 0 then mtu cfg else 0 else 16128)
                 = (if mtu cfg >? 0 then mtu cfg else 16128)).
  { destruct (mtu cfg >? 0) eqn:E; [now rewrite E | reflexivity]. }
  rewrite Elow, Emtu in S2.
  destruct (open w (assumed_format cfg) (buffer_seconds cfg) d1)
    as [opened d2].
  simpl in S2. destruct opened; simpl.
  2:{ now rewrite setup_calls_close. }
  match goal with
  | |- context [pump ?b ?c ?sc ?d ?l] =>
      pose proof (setup_calls_pump b c sc d l) as K;
      destruct (pump b c sc d l) as [[e d3] log3]
  end.
  simpl in K. rewrite S2 in K.
  destruct e; simpl; try exact K.
  now rewrite !setup_calls_close.
Qed.

Lemma main_setup_witness :
  let p := mkProcess true 4242 [mkRead true 4800; mkRead true 0] in
  let q := mkProcess false 4242 [mkRead true 4800; mkRead true 0] in
  setup_calls
    (m_syncBuffer (snd (fst (@main Sample.ids Sample.online
                               Sample.config p))))
  = [ConfigTransferVarMax 5000; SetSinkConfigure 275;
     SetSink "192.168.1.20" 16128; SyncOpen 1] /\
  setup_calls
    (m_syncBuffer (snd (fst (@main Sample.ids Sample.online
                               Sample.config q))))
  = [].
Proof.
  cbv zeta. split.
  - rewrite (@main_setup Sample.ids Sample.online Sample.config
               (mkProcess true 4242 [mkRead true 4800; mkRead true 0])).
    vm_compute. reflexivity.
  - rewrite (@main_setup Sample.ids Sample.online Sample.config
               (mkProcess false 4242 [mkRead true 4800; mkRead true 0])).
    vm_compute. reflexivity.
Defined.
